(** * RecipeBox: recipe persistence and aggregation layer

    A shallow embedding of [models.py], [storage.py], [recipes.py] and
    [shopping_list.py], and the properties of the specification that are
    settled on it.

    Conventions of the embedding.
    - A Python [str] is a [string]: the code points below 256.  On that
      range [str.lower], [str.strip] and [in] are written out below.
    - A [dict] used as a map from ingredient names to quantities is a
      [gmap string (list string)].
    - File contents are kept parsed: a file holds either a JSON value or
      text that [json.load] rejects.  [json.dump] followed by [json.load]
      is the identity on the values [to_dict] produces.
    - Code that raises runs in a state-and-exception monad; the state is
      the storage's files for [storage.py] and the manager object (its
      list and its storage) for [recipes.py]. *)

From Stdlib Require Import String Ascii ZArith List Bool Lia DecimalString.
From stdpp Require Import gmap strings list fin_maps.

Set Warnings "-register-all".

Local Open Scope string_scope.
Local Open Scope list_scope.

(* ===================================================================== *)
(** ** Python strings *)
(* ===================================================================== *)

Module PyStr.

(** [str.isspace] on one code point below 256: TAB..CR, the separators
    FS..US, SPACE, NEL (0x85) and NBSP (0xA0). *)
Definition isspace (c : ascii) : bool :=
  let n := nat_of_ascii c in
  (((9 <=? n) && (n <=? 13)) || ((28 <=? n) && (n <=? 32))
   || (n =? 133) || (n =? 160))%nat.

(** [str.lower] on one code point below 256: A..Z and the Latin-1
    capitals 0xC0..0xDE (the multiplication sign 0xD7 apart) move up
    by 32. *)
Definition lower_char (c : ascii) : ascii :=
  let n := nat_of_ascii c in
  if (((65 <=? n) && (n <=? 90))
      || ((192 <=? n) && (n <=? 222) && negb (n =? 215)))%nat
  then ascii_of_nat (n + 32) else c.

Fixpoint lower (s : string) : string :=
  match s with
  | EmptyString => EmptyString
  | String c s' => String (lower_char c) (lower s')
  end.

Fixpoint lstrip (s : string) : string :=
  match s with
  | EmptyString => EmptyString
  | String c s' => if isspace c then lstrip s' else s
  end.

Fixpoint rstrip (s : string) : string :=
  match s with
  | EmptyString => EmptyString
  | String c s' =>
      match rstrip s' with
      | EmptyString => if isspace c then EmptyString else String c EmptyString
      | t => String c t
      end
  end.

(** [s.strip()] *)
Definition strip (s : string) : string := rstrip (lstrip s).

Fixpoint startswith (p s : string) : bool :=
  match p, s with
  | EmptyString, _ => true
  | String _ _, EmptyString => false
  | String a p', String b s' => Ascii.eqb a b && startswith p' s'
  end.

(** [p in s] *)
Fixpoint contains (p s : string) : bool :=
  startswith p s
  || match s with
     | EmptyString => false
     | String _ s' => contains p s'
     end.

(** Truth value of a string: [not s] is [negb (truthy s)]. *)
Definition truthy (s : string) : bool :=
  match s with EmptyString => false | _ => true end.

(** Every code point of [s] is white space. *)
Fixpoint all_space (s : string) : bool :=
  match s with
  | EmptyString => true
  | String c s' => isspace c && all_space s'
  end.

End PyStr.

(* ===================================================================== *)
(** ** models.py *)
(* ===================================================================== *)

Record Ingredient := mkIngredient {
  ing_name : string;
  ing_quantity : string
}.

Record Recipe := mkRecipe {
  r_id : string;
  r_name : string;
  r_ingredients : list Ingredient;
  r_steps : string;
  r_favorite : bool;
  r_category : option string
}.

(** The values [json.load] returns and [json.dump] accepts.  A number
    stands for [int] and [float] alike: the code never computes with
    one.  A parsed object has distinct keys, so the first binding of a
    key in [JDict] is the only one. *)
Inductive json :=
| JNull
| JBool (b : bool)
| JNum (z : Z)
| JStr (s : string)
| JList (l : list json)
| JDict (kv : list (string * json)).

(** [d.get(k)] / [k in d] / [d[k]] on the bindings of a dict. *)
Fixpoint dict_get (k : string) (kv : list (string * json)) : option json :=
  match kv with
  | [] => None
  | (k', v) :: rest => if String.eqb k k' then Some v else dict_get k rest
  end.

Definition ingredient_to_dict (ing : Ingredient) : json :=
  JDict [("name", JStr (ing_name ing)); ("quantity", JStr (ing_quantity ing))].

Definition category_to_json (c : option string) : json :=
  match c with Some s => JStr s | None => JNull end.

(** [Recipe.to_dict] *)
Definition to_dict (r : Recipe) : json :=
  JDict [ ("id", JStr (r_id r));
          ("name", JStr (r_name r));
          ("ingredients", JList (map ingredient_to_dict (r_ingredients r)));
          ("steps", JStr (r_steps r));
          ("favorite", JBool (r_favorite r));
          ("category", category_to_json (r_category r)) ].

(** What [Recipe.from_dict] builds.  The dataclass does not check its
    annotations, so the fields of a loaded object hold whatever JSON
    value the file had. *)
Record RawIngredient := mkRawIngredient {
  raw_ing_name : json;
  raw_ing_quantity : json
}.

Record RawRecipe := mkRawRecipe {
  raw_id : json;
  raw_name : json;
  raw_ingredients : list RawIngredient;
  raw_steps : json;
  raw_favorite : json;
  raw_category : json
}.

(** A typed object seen as a loaded one, and back when the fields obey
    the annotations of the dataclass. *)
Definition raw_of_ingredient (i : Ingredient) : RawIngredient :=
  mkRawIngredient (JStr (ing_name i)) (JStr (ing_quantity i)).

Definition raw_of_recipe (r : Recipe) : RawRecipe :=
  mkRawRecipe (JStr (r_id r)) (JStr (r_name r))
              (map raw_of_ingredient (r_ingredients r))
              (JStr (r_steps r)) (JBool (r_favorite r))
              (category_to_json (r_category r)).

Definition typed_ingredient (i : RawIngredient) : option Ingredient :=
  match raw_ing_name i, raw_ing_quantity i with
  | JStr n, JStr q => Some (mkIngredient n q)
  | _, _ => None
  end.

Fixpoint typed_all {A B} (f : A -> option B) (l : list A) : option (list B) :=
  match l with
  | [] => Some []
  | x :: rest =>
      match f x, typed_all f rest with
      | Some y, Some ys => Some (y :: ys)
      | _, _ => None
      end
  end.

Definition typed_recipe (r : RawRecipe) : option Recipe :=
  match raw_id r, raw_name r, raw_steps r, raw_favorite r,
        typed_all typed_ingredient (raw_ingredients r) with
  | JStr i, JStr n, JStr s, JBool f, Some ings =>
      match raw_category r with
      | JNull => Some (mkRecipe i n ings s f None)
      | JStr c => Some (mkRecipe i n ings s f (Some c))
      | _ => None
      end
  | _, _, _, _, _ => None
  end.

(* ===================================================================== *)
(** ** Exceptions and the state-and-exception monad *)
(* ===================================================================== *)

(** The exception classes the code raises or catches.  [IOError] is
    [OSError]; every class here is caught by [except Exception]. *)
Inductive exn :=
| ValueError
| RuntimeError
| IOError
| JSONDecodeError
| KeyError
| TypeError
| AttributeError
| RecursionError.

Inductive outcome (A : Type) :=
| Returns (a : A)
| Raises (e : exn).
Arguments Returns {A} a.
Arguments Raises {A} e.

Definition M (S A : Type) : Type := S -> outcome A * S.

Definition ret {S A} (a : A) : M S A := fun s => (Returns a, s).
Definition raise {S A} (e : exn) : M S A := fun s => (Raises e, s).

Definition bind {S A B} (m : M S A) (k : A -> M S B) : M S B :=
  fun s =>
    match m s with
    | (Returns a, s') => k a s'
    | (Raises e, s') => (Raises e, s')
    end.

(** [try: m  except <classes>: h e]; the handler re-raises what its
    clauses do not name. *)
Definition try_except {S A} (m : M S A) (h : exn -> M S A) : M S A :=
  fun s =>
    match m s with
    | (Returns a, s') => (Returns a, s')
    | (Raises e, s') => h e s'
    end.

Definition get_state {S} : M S S := fun s => (Returns s, s).
Definition modify {S} (f : S -> S) : M S unit := fun s => (Returns tt, f s).

Declare Scope py_scope.
Delimit Scope py_scope with py.
Notation "x <- m ;; k" := (bind m (fun x => k))
  (at level 100, m at next level, right associativity) : py_scope.
Notation "m ;;; k" := (bind m (fun _ => k))
  (at level 100, right associativity) : py_scope.
Local Open Scope py_scope.

Definition lift_outcome {S A} (o : outcome A) : M S A := fun s => (o, s).

(* ===================================================================== *)
(** ** The files of a [JSONStorage] and the environment of a run *)
(* ===================================================================== *)

(** [file_path], [file_path + ".backup"], [file_path + ".tmp"]. *)
Inductive path := Primary | Backup | Temp.

(** A file's text, as [json.load] sees it. *)
Inductive content :=
| Garbage
| Doc (j : json).

Inductive event :=
| EvRead (p : path)
| EvCopy (src dst : path)
| EvWrite (p : path)
| EvReplace (src dst : path)
| EvPrint (msg : string).

(** The three files, what the run will meet (for each coming file
    operation, whether the operating system refuses it; the values
    [uuid4] will draw) and what it did (file operations and printed
    lines, oldest first). *)
Record World := mkWorld {
  primary : option content;
  backup : option content;
  temp : option content;
  faults : list bool;
  uuid_next : nat;
  log : list event
}.

Definition file (p : path) (w : World) : option content :=
  match p with
  | Primary => primary w
  | Backup => backup w
  | Temp => temp w
  end.

Definition set_file (p : path) (c : option content) (w : World) : World :=
  match p with
  | Primary => mkWorld c (backup w) (temp w) (faults w) (uuid_next w) (log w)
  | Backup => mkWorld (primary w) c (temp w) (faults w) (uuid_next w) (log w)
  | Temp => mkWorld (primary w) (backup w) c (faults w) (uuid_next w) (log w)
  end.

Definition record (e : event) : M World unit :=
  modify (fun w => mkWorld (primary w) (backup w) (temp w) (faults w)
                           (uuid_next w) (log w ++ [e])).

(** [print(msg)] *)
Definition print (msg : string) : M World unit := record (EvPrint msg).

(** Whether the operating system refuses the next file operation. *)
Definition next_fault : M World bool :=
  fun w =>
    match faults w with
    | [] => (Returns false, w)
    | b :: rest =>
        (Returns b,
         mkWorld (primary w) (backup w) (temp w) rest (uuid_next w) (log w))
    end.

(** [str(uuid4())] *)
Definition uuid_str (n : nat) : string :=
  "uuid-" ++ NilZero.string_of_uint (Nat.to_uint n).

Definition uuid4 : M World string :=
  fun w =>
    (Returns (uuid_str (uuid_next w)),
     mkWorld (primary w) (backup w) (temp w) (faults w)
             (S (uuid_next w)) (log w)).

(** [p.exists()] *)
Definition exists_ (p : path) : M World bool :=
  fun w => (Returns (match file p w with Some _ => true | None => false end), w).

(** [with open(p, 'r') as f: json.load(f)] *)
Definition read_json (p : path) : M World json :=
  record (EvRead p) ;;;
  refused <- next_fault ;;
  if refused then raise IOError
  else fun w =>
    match file p w with
    | None => (Raises IOError, w)
    | Some Garbage => (Raises JSONDecodeError, w)
    | Some (Doc j) => (Returns j, w)
    end.

(** [shutil.copy(src, dst)] *)
Definition copy (src dst : path) : M World unit :=
  record (EvCopy src dst) ;;;
  refused <- next_fault ;;
  if refused then raise IOError
  else fun w =>
    match file src w with
    | None => (Raises IOError, w)
    | Some c => (Returns tt, set_file dst (Some c) w)
    end.

(** [with open(p, 'w') as f: json.dump(j, f, ...)]; a refusal strikes at
    [open], before the file is touched. *)
Definition write_json (p : path) (j : json) : M World unit :=
  record (EvWrite p) ;;;
  refused <- next_fault ;;
  if refused then raise IOError
  else modify (set_file p (Some (Doc j))).

(** [src.replace(dst)] *)
Definition replace (src dst : path) : M World unit :=
  record (EvReplace src dst) ;;;
  refused <- next_fault ;;
  if refused then raise IOError
  else fun w =>
    match file src w with
    | None => (Raises IOError, w)
    | Some c => (Returns tt, set_file src None (set_file dst (Some c) w))
    end.

(* ===================================================================== *)
(** ** models.py: [Recipe.from_dict] *)
(* ===================================================================== *)

(** [for x in v]: the items the loop visits, or [TypeError] when [v] is
    not iterable. *)
Definition iterate (v : json) : outcome (list json) :=
  match v with
  | JList l => Returns l
  | JStr s => Returns (map (fun c => JStr (String c EmptyString))
                           (list_ascii_of_string s))
  | JDict kv => Returns (map (fun p => JStr (fst p)) kv)
  | JNull | JBool _ | JNum _ => Raises TypeError
  end.

(** [v[k]] for a string key [k]. *)
Definition subscript (v : json) (k : string) : outcome json :=
  match v with
  | JDict kv =>
      match dict_get k kv with
      | Some x => Returns x
      | None => Raises KeyError
      end
  | _ => Raises TypeError
  end.

(** [[Ingredient(name=ing["name"], quantity=ing["quantity"]) for ing in items]] *)
Fixpoint ingredients_from (items : list json) : outcome (list RawIngredient) :=
  match items with
  | [] => Returns []
  | ing :: rest =>
      match subscript ing "name" with
      | Raises e => Raises e
      | Returns n =>
          match subscript ing "quantity" with
          | Raises e => Raises e
          | Returns q =>
              match ingredients_from rest with
              | Raises e => Raises e
              | Returns l => Returns (mkRawIngredient n q :: l)
              end
          end
      end
  end.

(** [d.get(k, dflt)] *)
Definition dict_get_default (k : string) (dflt : json)
    (kv : list (string * json)) : json :=
  match dict_get k kv with Some v => v | None => dflt end.

(** [Recipe.from_dict(data)]; [data.get] exists on a dict only. *)
Definition from_dict (data : json) : M World RawRecipe :=
  match data with
  | JDict kv =>
      items <- lift_outcome (iterate (dict_get_default "ingredients" (JList []) kv)) ;;
      ingredients <- lift_outcome (ingredients_from items) ;;
      fresh <- uuid4 ;;
      ret (mkRawRecipe (dict_get_default "id" (JStr fresh) kv)
                       (dict_get_default "name" (JStr "") kv)
                       ingredients
                       (dict_get_default "steps" (JStr "") kv)
                       (dict_get_default "favorite" (JBool false) kv)
                       (dict_get_default "category" JNull kv))
  | _ => raise AttributeError
  end.

(* ===================================================================== *)
(** ** storage.py: [JSONStorage] *)
(* ===================================================================== *)

(** The loop of [load_recipes] over the entries of the document: an
    entry that raises [KeyError] or [TypeError] is skipped with a
    warning, any other exception leaves the loop. *)
Fixpoint load_entries (entries : list json) (recipes : list RawRecipe)
    : M World (list RawRecipe) :=
  match entries with
  | [] => ret recipes
  | recipe_dict :: rest =>
      recipes' <-
        try_except
          (recipe <- from_dict recipe_dict ;; ret (recipes ++ [recipe]))
          (fun e =>
             match e with
             | KeyError | TypeError =>
                 print "Warning: Skipping invalid recipe entry" ;;;
                 ret recipes
             | _ => raise e
             end) ;;
      load_entries rest recipes'
  end.

(** [JSONStorage.load_recipes].  [depth] is the number of frames the
    interpreter still grants: a call with none left raises
    [RecursionError]. *)
Fixpoint load_recipes (depth : nat) : M World (list RawRecipe) :=
  match depth with
  | O => raise RecursionError
  | S depth' =>
      present <- exists_ Primary ;;
      if negb present then ret []
      else
        try_except
          (data <- read_json Primary ;;
           match
             match data with
             | JDict kv => dict_get "recipes" kv
             | JList _ => Some data
             | _ => None
             end
           with
           | None => ret []
           | Some recipes_data =>
               entries <- lift_outcome (iterate recipes_data) ;;
               load_entries entries []
           end)
          (fun e =>
             match e with
             | JSONDecodeError =>
                 has_backup <- exists_ Backup ;;
                 if has_backup then
                   print "Warning: recipes.json is corrupted. Attempting to restore from backup..." ;;;
                   try_except
                     (copy Backup Primary ;;; load_recipes depth')
                     (fun _ =>
                        print "Error: Could not restore from backup. Starting with empty recipe list." ;;;
                        ret [])
                 else
                   print "Warning: recipes.json is corrupted and no backup found. Starting with empty recipe list." ;;;
                   ret []
             | IOError => raise IOError
             | _ => raise e
             end)
  end.

(** [JSONStorage.save_recipes] *)
Definition save_recipes (recipes : list Recipe) : M World unit :=
  try_except
    (present <- exists_ Primary ;;
     (if present then
        try_except (copy Primary Backup)
                   (fun _ => print "Warning: Could not create backup")
      else ret tt) ;;;
     let recipes_data := JList (map to_dict recipes) in
     write_json Temp recipes_data ;;;
     replace Temp Primary)
    (fun e =>
       match e with
       | IOError => raise IOError
       | _ =>
           present <- exists_ Primary ;;
           has_backup <- exists_ Backup ;;
           (if present && has_backup then
              try_except
                (copy Backup Primary ;;;
                 print "Error during save. Restored from backup.")
                (fun _ => ret tt)
            else ret tt) ;;;
           raise e
       end).

(* ===================================================================== *)
(** ** recipes.py: [RecipeManager] *)
(* ===================================================================== *)

(** The manager object: [self._recipes] and [self.storage] (the files
    its [JSONStorage] works on).  Every slot of [_recipes] holds an
    object of its own ([add_recipe] and [from_dict] build a new one each
    time), so assigning to a field of the object a lookup returned is an
    update of the slot it was found in. *)
Record Manager := mkManager {
  _recipes : list Recipe;
  storage : World
}.

Definition on_storage {A} (m : M World A) : M Manager A :=
  fun self =>
    match m (storage self) with
    | (o, w') => (o, mkManager (_recipes self) w')
    end.

Definition set_recipes (f : list Recipe -> list Recipe) : M Manager unit :=
  modify (fun self => mkManager (f (_recipes self)) (storage self)).

(** [RecipeManager._load_recipes]: whatever the load raises is caught,
    reported and replaced by the empty list.  The manager below works
    on objects that obey the annotations of the dataclass; [None] stands
    for a load that returned an object that does not. *)
Definition _load_recipes (depth : nat) (self : Manager)
    : option (outcome unit * Manager) :=
  match load_recipes depth (storage self) with
  | (Returns raw, w') =>
      match typed_all typed_recipe raw with
      | Some recipes => Some (Returns tt, mkManager recipes w')
      | None => None
      end
  | (Raises e, w') =>
      match print "Error loading recipes" w' with
      | (_, w'') => Some (Returns tt, mkManager [] w'')
      end
  end.

(** [RecipeManager.__init__] on the given storage: the new manager, or
    the exception that leaves the constructor. *)
Definition RecipeManager_init (depth : nat) (w : World)
    : option (outcome Manager) :=
  match _load_recipes depth (mkManager [] w) with
  | Some (Returns _, self) => Some (Returns self)
  | Some (Raises e, _) => Some (Raises e)
  | None => None
  end.

(** [RecipeManager._save_recipes] *)
Definition _save_recipes : M Manager unit :=
  try_except
    (self <- get_state ;; on_storage (save_recipes (_recipes self)))
    (fun _ => raise RuntimeError).

(** [category.strip() if category else None] *)
Definition normalize_category (category : option string) : option string :=
  match category with
  | Some c => if PyStr.truthy c then Some (PyStr.strip c) else None
  | None => None
  end.

(** [RecipeManager.add_recipe] *)
Definition add_recipe (name : string) (ingredients : list Ingredient)
    (steps : string) (favorite : bool) (category : option string)
    : M Manager Recipe :=
  if negb (PyStr.truthy name) || negb (PyStr.truthy (PyStr.strip name))
  then raise ValueError
  else
    fresh <- on_storage uuid4 ;;
    let recipe := mkRecipe fresh (PyStr.strip name) ingredients steps favorite
                           (normalize_category category) in
    set_recipes (fun l => l ++ [recipe]) ;;;
    _save_recipes ;;;
    ret recipe.

(** [RecipeManager.get_all_recipes] *)
Definition get_all_recipes (self : Manager) : list Recipe := _recipes self.

(** The loop of [get_recipe_by_id]. *)
Fixpoint find_by_id (recipe_id : string) (recipes : list Recipe) : option Recipe :=
  match recipes with
  | [] => None
  | recipe :: rest =>
      if String.eqb (r_id recipe) recipe_id then Some recipe
      else find_by_id recipe_id rest
  end.

(** [RecipeManager.get_recipe_by_id] *)
Definition get_recipe_by_id (recipe_id : string) (self : Manager) : option Recipe :=
  find_by_id recipe_id (_recipes self).

(** [RecipeManager.get_favorite_recipes] *)
Definition get_favorite_recipes (self : Manager) : list Recipe :=
  filter (fun recipe => r_favorite recipe = true) (_recipes self).

(** The inner loop of [search_recipes]: [true] when it leaves by [break]. *)
Fixpoint any_ingredient_matches (search_term_lower : string)
    (ingredients : list Ingredient) : bool :=
  match ingredients with
  | [] => false
  | ingredient :: rest =>
      if PyStr.contains search_term_lower (PyStr.lower (ing_name ingredient))
      then true
      else any_ingredient_matches search_term_lower rest
  end.

(** The outer loop of [search_recipes], with [matching_recipes] as the
    accumulator. *)
Fixpoint search_loop (search_term_lower : string) (recipes : list Recipe)
    (matching_recipes : list Recipe) : list Recipe :=
  match recipes with
  | [] => matching_recipes
  | recipe :: rest =>
      if PyStr.contains search_term_lower (PyStr.lower (r_name recipe))
      then search_loop search_term_lower rest (matching_recipes ++ [recipe])
      else if any_ingredient_matches search_term_lower (r_ingredients recipe)
      then search_loop search_term_lower rest (matching_recipes ++ [recipe])
      else search_loop search_term_lower rest matching_recipes
  end.

(** [RecipeManager.search_recipes] *)
Definition search_recipes (search_term : string) (self : Manager) : list Recipe :=
  if negb (PyStr.truthy search_term) then []
  else
    let search_term_lower := PyStr.strip (PyStr.lower search_term) in
    search_loop search_term_lower (_recipes self) [].

(** Assignment to fields of the object [get_recipe_by_id] returned: the
    first slot with that id is the one that changes. *)
Fixpoint update_by_id (recipe_id : string) (f : Recipe -> Recipe)
    (recipes : list Recipe) : list Recipe :=
  match recipes with
  | [] => []
  | recipe :: rest =>
      if String.eqb (r_id recipe) recipe_id then f recipe :: rest
      else recipe :: update_by_id recipe_id f rest
  end.

Definition set_favorite (b : bool) (r : Recipe) : Recipe :=
  mkRecipe (r_id r) (r_name r) (r_ingredients r) (r_steps r) b (r_category r).
Definition set_name (n : string) (r : Recipe) : Recipe :=
  mkRecipe (r_id r) n (r_ingredients r) (r_steps r) (r_favorite r) (r_category r).
Definition set_ingredients (l : list Ingredient) (r : Recipe) : Recipe :=
  mkRecipe (r_id r) (r_name r) l (r_steps r) (r_favorite r) (r_category r).
Definition set_steps (s : string) (r : Recipe) : Recipe :=
  mkRecipe (r_id r) (r_name r) (r_ingredients r) s (r_favorite r) (r_category r).
Definition set_category (c : option string) (r : Recipe) : Recipe :=
  mkRecipe (r_id r) (r_name r) (r_ingredients r) (r_steps r) (r_favorite r) c.

(** [recipe.favorite] and the like, read from the object after the
    call that may have changed it. *)
Definition current (recipe_id : string) (dflt : Recipe) : M Manager Recipe :=
  self <- get_state ;;
  ret (match get_recipe_by_id recipe_id self with
       | Some r => r
       | None => dflt
       end).

(** [RecipeManager.toggle_favorite] *)
Definition toggle_favorite (recipe_id : string) : M Manager bool :=
  self <- get_state ;;
  match get_recipe_by_id recipe_id self with
  | None => raise ValueError
  | Some recipe =>
      set_recipes (update_by_id recipe_id
                     (set_favorite (negb (r_favorite recipe)))) ;;;
      _save_recipes ;;;
      recipe' <- current recipe_id recipe ;;
      ret (r_favorite recipe')
  end.

(** The assignments of [update_recipe], in the order of the code, once
    the new name has passed its check. *)
Definition apply_update (name : option string)
    (ingredients : option (list Ingredient)) (steps : option string)
    (favorite : option bool) (category : option string) (r : Recipe) : Recipe :=
  let r := match name with Some n => set_name (PyStr.strip n) r | None => r end in
  let r := match ingredients with Some l => set_ingredients l r | None => r end in
  let r := match steps with Some s => set_steps s r | None => r end in
  let r := match favorite with Some b => set_favorite b r | None => r end in
  match category with
  | Some c => set_category (normalize_category (Some c)) r
  | None => r
  end.

(** [RecipeManager.update_recipe] *)
Definition update_recipe (recipe_id : string) (name : option string)
    (ingredients : option (list Ingredient)) (steps : option string)
    (favorite : option bool) (category : option string) : M Manager Recipe :=
  self <- get_state ;;
  match get_recipe_by_id recipe_id self with
  | None => raise ValueError
  | Some recipe =>
      if match name with
         | Some n => negb (PyStr.truthy (PyStr.strip n))
         | None => false
         end
      then raise ValueError
      else
        set_recipes (update_by_id recipe_id
                       (apply_update name ingredients steps favorite category)) ;;;
        _save_recipes ;;;
        current recipe_id recipe
  end.

(** [del self._recipes[i]] for the first [i] whose recipe has the id;
    [None] when the loop of [delete_recipe] ends without a match. *)
Fixpoint delete_first (recipe_id : string) (recipes : list Recipe)
    : option (list Recipe) :=
  match recipes with
  | [] => None
  | recipe :: rest =>
      if String.eqb (r_id recipe) recipe_id then Some rest
      else match delete_first recipe_id rest with
           | Some rest' => Some (recipe :: rest')
           | None => None
           end
  end.

(** [RecipeManager.delete_recipe] *)
Definition delete_recipe (recipe_id : string) : M Manager bool :=
  self <- get_state ;;
  match delete_first recipe_id (_recipes self) with
  | Some remaining =>
      set_recipes (fun _ => remaining) ;;;
      _save_recipes ;;;
      ret true
  | None => ret false
  end.

(** [shopping_list[key].append(quantity)], the list being created empty
    when the key is new. *)
Definition append_quantity (key quantity : string)
    (shopping_list : gmap string (list string)) : gmap string (list string) :=
  <[key := default [] (shopping_list !! key) ++ [quantity]]> shopping_list.

(** The inner loop of [RecipeManager.generate_shopping_list]: the key is
    [ingredient.name] as it is. *)
Fixpoint add_ingredients_raw (ingredients : list Ingredient)
    (shopping_list : gmap string (list string)) : gmap string (list string) :=
  match ingredients with
  | [] => shopping_list
  | ingredient :: rest =>
      add_ingredients_raw rest
        (append_quantity (ing_name ingredient) (ing_quantity ingredient) shopping_list)
  end.

(** The outer loop of [RecipeManager.generate_shopping_list]. *)
Fixpoint shopping_loop (self : Manager) (recipe_ids : list string)
    (shopping_list : gmap string (list string)) : gmap string (list string) :=
  match recipe_ids with
  | [] => shopping_list
  | recipe_id :: rest =>
      match get_recipe_by_id recipe_id self with
      | None => shopping_loop self rest shopping_list
      | Some recipe =>
          shopping_loop self rest
            (add_ingredients_raw (r_ingredients recipe) shopping_list)
      end
  end.

(** [RecipeManager.generate_shopping_list] *)
Definition generate_shopping_list (recipe_ids : list string) (self : Manager)
    : gmap string (list string) :=
  shopping_loop self recipe_ids ∅.

(* ===================================================================== *)
(** ** shopping_list.py: [ShoppingListGenerator] *)
(* ===================================================================== *)

(** [ShoppingListGenerator._normalize_ingredient_name] *)
Definition _normalize_ingredient_name (name : string) : string :=
  PyStr.strip (PyStr.lower name).

(** The inner loop of [generate]. *)
Fixpoint add_ingredients (ingredients : list Ingredient)
    (shopping_list : gmap string (list string)) : gmap string (list string) :=
  match ingredients with
  | [] => shopping_list
  | ingredient :: rest =>
      let normalized_name := _normalize_ingredient_name (ing_name ingredient) in
      add_ingredients rest
        (append_quantity normalized_name (ing_quantity ingredient) shopping_list)
  end.

(** The outer loop of [generate]. *)
Fixpoint generate_loop (recipes : list Recipe)
    (shopping_list : gmap string (list string)) : gmap string (list string) :=
  match recipes with
  | [] => shopping_list
  | recipe :: rest =>
      generate_loop rest (add_ingredients (r_ingredients recipe) shopping_list)
  end.

(** [ShoppingListGenerator.generate] *)
Definition generate (recipes : list Recipe) : gmap string (list string) :=
  generate_loop recipes ∅.

(* ===================================================================== *)
(** ** Sample data *)
(* ===================================================================== *)

Module Sample.

Definition tomato_soup : Recipe :=
  mkRecipe "1" "Tomato Soup"
           [mkIngredient "Tomato" "2"; mkIngredient "Onion" "1"]
           "Simmer." false (Some "dinner").

Definition salad : Recipe :=
  mkRecipe "2" "Salad"
           [mkIngredient "tomato" " 200g "; mkIngredient "Tomato Paste" "1 tbsp"]
           "" true None.

Definition toast : Recipe :=
  mkRecipe "3" "Toast" [mkIngredient "Bread" "2 slices"] "Toast it." false None.

(** No file yet, no refusal to come. *)
Definition fresh_world : World := mkWorld None None None [] 0 [].

(** No file yet; the first file operation will be refused. *)
Definition refusing_world : World := mkWorld None None None [true] 0 [].

(** A primary file that parses, and a read that will be refused. *)
Definition unreadable_world : World :=
  mkWorld (Some (Doc (JList [to_dict toast]))) None None [true] 0 [].

(** Primary and backup both hold text that is not JSON. *)
Definition corrupt_world : World :=
  mkWorld (Some Garbage) (Some Garbage) None [] 0 [].

Definition kitchen (w : World) : Manager :=
  mkManager [tomato_soup; salad; toast] w.

End Sample.

(* ===================================================================== *)
(** ** Definitions the statements use *)
(* ===================================================================== *)

(** The test one recipe passes in [search_recipes], for the term the
    loops compare with. *)
Definition recipe_matches (search_term_lower : string) (recipe : Recipe) : bool :=
  PyStr.contains search_term_lower (PyStr.lower (r_name recipe))
  || existsb (fun ingredient =>
                PyStr.contains search_term_lower (PyStr.lower (ing_name ingredient)))
             (r_ingredients recipe).

(** Search as the specification words it: the term itself, compared
    without regard to case, is a substring of the recipe's name or of
    one of its ingredients' names. *)
Definition search_as_specified (term : string) (recipes : list Recipe) : list Recipe :=
  if negb (PyStr.truthy term) then []
  else List.filter (recipe_matches (PyStr.lower term)) recipes.

(** The quantity strings, in order, of the ingredients of [ingredients]
    whose name has the key [key] under [key_of]. *)
Definition quantities_under (key_of : string -> string) (key : string)
    (ingredients : list Ingredient) : list string :=
  map ing_quantity
      (List.filter (fun i => String.eqb (key_of (ing_name i)) key) ingredients).

(** The recipes a list of ids resolves to, unresolved ids dropped. *)
Definition resolve (self : Manager) (recipe_ids : list string) : list Recipe :=
  omap (fun recipe_id => get_recipe_by_id recipe_id self) recipe_ids.

(** Both aggregation loops, with the choice of key left open. *)
Fixpoint aggregate (key_of : string -> string) (ingredients : list Ingredient)
    (shopping_list : gmap string (list string)) : gmap string (list string) :=
  match ingredients with
  | [] => shopping_list
  | i :: rest =>
      aggregate key_of rest
        (append_quantity (key_of (ing_name i)) (ing_quantity i) shopping_list)
  end.

(** How many times the log shows the backup copied over the primary
    file, and the primary file read. *)
Definition is_restore (e : event) : bool :=
  match e with EvCopy Backup Primary => true | _ => false end.

Definition is_read (e : event) : bool :=
  match e with EvRead Primary => true | _ => false end.

Definition restores (lg : list event) : nat := length (List.filter is_restore lg).
Definition reads (lg : list event) : nat := length (List.filter is_read lg).

(* ===================================================================== *)
(** ** Further functions of the source *)
(* ===================================================================== *)

(** [RecipeManager.get_recipe_count] *)
Definition get_recipe_count (self : Manager) : nat := length (_recipes self).

(** [RecipeManager.get_favorite_count] *)
Definition get_favorite_count (self : Manager) : nat :=
  length (get_favorite_recipes self).

(** [RecipeManager.recipe_exists] *)
Definition recipe_exists (recipe_id : string) (self : Manager) : bool :=
  match get_recipe_by_id recipe_id self with
  | Some _ => true
  | None => false
  end.

(** [ShoppingListGenerator.get_ingredient_count] *)
Definition get_ingredient_count (shopping_list : gmap string (list string)) : nat :=
  size shopping_list.

(** [ShoppingListGenerator.get_total_items]:
    [sum(len(quantities) for quantities in shopping_list.values())] *)
Definition get_total_items (shopping_list : gmap string (list string)) : nat :=
  map_fold (fun _ quantities total => length quantities + total) 0 shopping_list.

(** [generate_shopping_list_dict], the module-level function. *)
Definition generate_shopping_list_dict (recipes : list Recipe)
    : gmap string (list string) :=
  generate recipes.

(** The text [save_recipes] puts in the primary file for a collection. *)
Definition serialized (recipes : list Recipe) : content :=
  Doc (JList (map to_dict recipes)).

(** An entry of an "ingredients" array that [from_dict] accepts: an
    object with a "name" and a "quantity". *)
Definition ingredient_entry_ok (ing : json) : bool :=
  match ing with
  | JDict kv =>
      match dict_get "name" kv, dict_get "quantity" kv with
      | Some _, Some _ => true
      | _, _ => false
      end
  | _ => false
  end.

Definition is_dict (j : json) : bool :=
  match j with JDict _ => true | _ => false end.

(** A world with another primary file. *)
Definition with_primary (c : option content) (w : World) : World :=
  set_file Primary c w.

(** The world after one more [uuid4], and after one more logged event. *)
Definition bump_uuid (w : World) : World :=
  mkWorld (primary w) (backup w) (temp w) (faults w) (S (uuid_next w)) (log w).

Definition logged (e : event) (w : World) : World :=
  mkWorld (primary w) (backup w) (temp w) (faults w) (uuid_next w) (log w ++ [e]).

(** The "ingredients" of an object are such that [from_dict] builds
    the recipe: absent, or iterable with acceptable items only. *)
Definition ingredients_acceptable (kv : list (string * json)) : bool :=
  match iterate (dict_get_default "ingredients" (JList []) kv) with
  | Returns items => forallb ingredient_entry_ok items
  | Raises _ => false
  end.

(** A document of one of the two shapes [load_recipes] reads recipes
    from: an array, or an object with a "recipes" member. *)
Definition accepted_shape (data : json) : bool :=
  match data with
  | JList _ => true
  | JDict kv => match dict_get "recipes" kv with Some _ => true | None => false end
  | _ => false
  end.

(** A second sample collection, with ingredient names in normal form. *)
Module Pantry.

Definition porridge : Recipe :=
  mkRecipe "p1" "Porridge"
           [mkIngredient "oats" "1 cup"; mkIngredient "milk" "200 ml"]
           "Boil." false None.

Definition pancakes : Recipe :=
  mkRecipe "p2" "Pancakes"
           [mkIngredient "milk" "100 ml"; mkIngredient "flour" "2 cups"]
           "Fry." true (Some "breakfast").

Definition shelf (w : World) : Manager := mkManager [porridge; pancakes] w.

End Pantry.

(** The world after the read of the primary file has been attempted. *)
Definition after_read (w : World) : World :=
  mkWorld (primary w) (backup w) (temp w) (tl (faults w)) (uuid_next w)
          (log w ++ [EvRead Primary]).

(** The entries [load_recipes] loops over for a parsed document, if it
    has one of the two accepted shapes. *)
Definition recipes_data_of (data : json) : option json :=
  match data with
  | JDict kv => dict_get "recipes" kv
  | JList _ => Some data
  | _ => None
  end.

(** Unfolding of the monad and of the file operations. *)
Ltac run_storage :=
  unfold bind, try_except, exists_, read_json, write_json, copy, replace,
    record, modify, print, next_fault, raise, ret, lift_outcome;
  cbn.

Ltac run_manager :=
  unfold bind, try_except, get_state, set_recipes, modify, on_storage, uuid4,
    current, raise, ret;
  cbn [_recipes storage].

(* ===================================================================== *)
(** ** Strings: lemmas *)
(* ===================================================================== *)

Lemma contains_empty (s : string) : PyStr.contains "" s = true.
Proof. destruct s; reflexivity. Qed.

Lemma lower_char_space (c : ascii) :
  PyStr.isspace c = true -> PyStr.lower_char c = c.
Proof.
  destruct c as [[] [] [] [] [] [] [] []]; vm_compute; congruence.
Qed.

Lemma lower_all_space (s : string) :
  PyStr.all_space s = true -> PyStr.lower s = s.
Proof.
  induction s as [|c s IH]; simpl; [reflexivity|].
  intros [Hc Hs]%andb_prop. rewrite (lower_char_space c Hc), (IH Hs). reflexivity.
Qed.

Lemma lstrip_all_space (s : string) :
  PyStr.all_space s = true -> PyStr.lstrip s = "".
Proof.
  induction s as [|c s IH]; simpl; [reflexivity|].
  intros [Hc Hs]%andb_prop. rewrite Hc. auto.
Qed.

Lemma strip_all_space (s : string) :
  PyStr.all_space s = true -> PyStr.strip s = "".
Proof. intros H. unfold PyStr.strip. rewrite (lstrip_all_space s H). reflexivity. Qed.

(* ===================================================================== *)
(** ** Search *)
(* ===================================================================== *)

Lemma any_ingredient_matches_existsb (t : string) (ingredients : list Ingredient) :
  any_ingredient_matches t ingredients
  = existsb (fun i => PyStr.contains t (PyStr.lower (ing_name i))) ingredients.
Proof.
  induction ingredients as [|i rest IH]; simpl; [reflexivity|].
  rewrite IH. destruct (PyStr.contains t (PyStr.lower (ing_name i))); reflexivity.
Qed.

Lemma search_loop_filter (t : string) (recipes acc : list Recipe) :
  search_loop t recipes acc = acc ++ List.filter (recipe_matches t) recipes.
Proof.
  revert acc. induction recipes as [|r rest IH]; intros acc; simpl.
  - symmetry. apply app_nil_r.
  - unfold recipe_matches at 1. rewrite any_ingredient_matches_existsb.
    destruct (PyStr.contains t (PyStr.lower (r_name r))); simpl.
    + rewrite IH, <- app_assoc. reflexivity.
    + destruct (existsb _ _); rewrite IH; [rewrite <- app_assoc|]; reflexivity.
Qed.

Lemma filter_all {A} (f : A -> bool) (l : list A) :
  (forall x, f x = true) -> List.filter f l = l.
Proof.
  intros H. induction l as [|x l IH]; simpl; [reflexivity|].
  rewrite H, IH. reflexivity.
Qed.

(** C7, as amended.  [search_recipes] returns nothing for the empty term.
    For a term that is not empty once lowercased and stripped of
    surrounding white space, it keeps, in the order of the collection and
    once per slot, exactly the recipes for which that lowercased and
    stripped term is a substring of the lowercased name or of the
    lowercased name of one of the ingredients. *)
Theorem search_recipes_filters_on_stripped_term :
  forall (term : string) (self : Manager),
    PyStr.strip (PyStr.lower term) <> "" ->
    search_recipes "" self = []
    /\ search_recipes term self
       = List.filter (recipe_matches (PyStr.strip (PyStr.lower term)))
                     (_recipes self).
Proof.
  intros term self Hne. split; [reflexivity|].
  unfold search_recipes. destruct term as [|c term']; [contradiction Hne; reflexivity|].
  cbn [PyStr.truthy negb]. apply search_loop_filter.
Qed.

Lemma search_recipes_filters_on_stripped_term_witness :
  search_recipes "" (Sample.kitchen Sample.fresh_world) = []
  /\ search_recipes " TOM " (Sample.kitchen Sample.fresh_world)
     = List.filter (recipe_matches "tom") [Sample.tomato_soup; Sample.salad; Sample.toast].
Proof.
  apply (search_recipes_filters_on_stripped_term " TOM "
           (Sample.kitchen Sample.fresh_world)).
  vm_compute. discriminate.
Defined.

(** C7, the counterexample.  The term "tom " (a trailing blank) is a
    substring of no recipe name and of no ingredient name of the sample
    collection, whatever the case; the code strips it to "tom" and returns
    the soup and the salad. *)
Lemma search_recipes_strips_the_term :
  search_as_specified "tom " (_recipes (Sample.kitchen Sample.fresh_world)) = []
  /\ search_recipes "tom " (Sample.kitchen Sample.fresh_world)
     = [Sample.tomato_soup; Sample.salad].
Proof. split; reflexivity. Qed.

(** C9.  A term that is not empty and holds white space only selects
    every recipe, in the order of the collection. *)
Theorem search_recipes_blank_term_returns_all :
  forall (term : string) (self : Manager),
    term <> "" ->
    PyStr.all_space term = true ->
    search_recipes term self = _recipes self.
Proof.
  intros term self Hne Hsp. unfold search_recipes.
  destruct term as [|c term']; [congruence|]. cbn [PyStr.truthy negb].
  rewrite (lower_all_space _ Hsp), (strip_all_space _ Hsp).
  rewrite search_loop_filter. cbn [app].
  apply filter_all. intros r. unfold recipe_matches.
  rewrite contains_empty. reflexivity.
Qed.

Lemma search_recipes_blank_term_witness :
  search_recipes "   " (Sample.kitchen Sample.fresh_world)
  = [Sample.tomato_soup; Sample.salad; Sample.toast].
Proof.
  apply (search_recipes_blank_term_returns_all "   "
           (Sample.kitchen Sample.fresh_world)).
  - discriminate.
  - reflexivity.
Defined.

(* ===================================================================== *)
(** ** Shopping lists *)
(* ===================================================================== *)

Section Aggregation.

Variable key_of : string -> string.

Lemma aggregate_app (l1 l2 : list Ingredient) (m : gmap string (list string)) :
  aggregate key_of (l1 ++ l2) m = aggregate key_of l2 (aggregate key_of l1 m).
Proof. revert m. induction l1 as [|i l1 IH]; intros m; simpl; auto. Qed.

Lemma aggregate_lookup (ingredients : list Ingredient)
    (m : gmap string (list string)) (key : string) :
  aggregate key_of ingredients m !! key
  = match quantities_under key_of key ingredients with
    | [] => m !! key
    | qs => Some (default [] (m !! key) ++ qs)
    end.
Proof.
  revert m. induction ingredients as [|i rest IH]; intros m; [reflexivity|].
  cbn [aggregate]. rewrite IH. unfold quantities_under, append_quantity.
  cbn [List.filter].
  destruct (String.eqb_spec (key_of (ing_name i)) key) as [->|Hne].
  - rewrite lookup_insert_eq. cbn [map default].
    destruct (map ing_quantity _) as [|q qs]; [reflexivity|].
    unfold id. rewrite <- app_assoc. reflexivity.
  - rewrite lookup_insert_ne by exact Hne. reflexivity.
Qed.

End Aggregation.

Lemma add_ingredients_aggregate (ingredients : list Ingredient)
    (m : gmap string (list string)) :
  add_ingredients ingredients m = aggregate _normalize_ingredient_name ingredients m.
Proof. revert m. induction ingredients as [|i l IH]; intros m; simpl; auto. Qed.

Lemma add_ingredients_raw_aggregate (ingredients : list Ingredient)
    (m : gmap string (list string)) :
  add_ingredients_raw ingredients m = aggregate (fun n => n) ingredients m.
Proof. revert m. induction ingredients as [|i l IH]; intros m; simpl; auto. Qed.

Lemma generate_loop_aggregate (recipes : list Recipe)
    (m : gmap string (list string)) :
  generate_loop recipes m
  = aggregate _normalize_ingredient_name (flat_map r_ingredients recipes) m.
Proof.
  revert m. induction recipes as [|r rest IH]; intros m; [reflexivity|].
  cbn [generate_loop flat_map].
  rewrite IH, aggregate_app, add_ingredients_aggregate. reflexivity.
Qed.

Lemma shopping_loop_aggregate (self : Manager) (recipe_ids : list string)
    (m : gmap string (list string)) :
  shopping_loop self recipe_ids m
  = aggregate (fun n => n) (flat_map r_ingredients (resolve self recipe_ids)) m.
Proof.
  revert m. induction recipe_ids as [|i rest IH]; intros m; [reflexivity|].
  cbn [shopping_loop]. unfold resolve. cbn [omap list_omap].
  destruct (get_recipe_by_id i self) as [r|].
  - cbn [flat_map]. rewrite aggregate_app, IH, add_ingredients_raw_aggregate.
    reflexivity.
  - apply IH.
Qed.

(** C6.  In the result of [generate] a key is bound exactly when some
    ingredient of the input has it as its lowercased and stripped name,
    and it is bound to the quantity strings of those ingredients,
    untouched, in the order of the recipes and of their ingredients. *)
Theorem generate_groups_quantities_by_normalized_name :
  forall (recipes : list Recipe) (key : string),
    generate recipes !! key
    = match quantities_under (fun name => PyStr.strip (PyStr.lower name)) key
                             (flat_map r_ingredients recipes) with
      | [] => None
      | quantities => Some quantities
      end.
Proof.
  intros recipes key. unfold generate.
  rewrite generate_loop_aggregate, aggregate_lookup.
  rewrite lookup_empty. reflexivity.
Qed.

(** C10.  [RecipeManager.generate_shopping_list] drops the ids that do
    not resolve and binds each ingredient name, as stored, to the
    quantities of the ingredients of that very name; on the sample
    collection "Tomato" and "tomato" are two keys, where [generate] over
    the resolved recipes has the single key "tomato". *)
Theorem manager_shopping_list_keeps_raw_names :
  (forall (self : Manager) (recipe_ids : list string) (key : string),
      generate_shopping_list recipe_ids self !! key
      = match quantities_under (fun name => name) key
                               (flat_map r_ingredients (resolve self recipe_ids)) with
        | [] => None
        | quantities => Some quantities
        end)
  /\ (let self := Sample.kitchen Sample.fresh_world in
      let ids := ["1"; "no-such-id"; "2"] in
      resolve self ids = [Sample.tomato_soup; Sample.salad]
      /\ generate_shopping_list ids self !! "Tomato" = Some ["2"]
      /\ generate_shopping_list ids self !! "tomato" = Some [" 200g "]
      /\ generate (resolve self ids) !! "Tomato" = None
      /\ generate (resolve self ids) !! "tomato" = Some ["2"; " 200g "]
      /\ generate_shopping_list ids self <> generate (resolve self ids)).
Proof.
  split.
  - intros self recipe_ids key. unfold generate_shopping_list.
    rewrite shopping_loop_aggregate, aggregate_lookup, lookup_empty. reflexivity.
  - cbv zeta.
    assert (Hm : generate_shopping_list ["1"; "no-such-id"; "2"]
                   (Sample.kitchen Sample.fresh_world) !! "Tomato" = Some ["2"])
      by (vm_compute; reflexivity).
    assert (Hg : generate (resolve (Sample.kitchen Sample.fresh_world)
                                   ["1"; "no-such-id"; "2"]) !! "Tomato" = None)
      by (vm_compute; reflexivity).
    repeat split; try (vm_compute; reflexivity); try assumption.
    intros Heq. rewrite Heq in Hm. congruence.
Qed.

(* ===================================================================== *)
(** ** Storage: loading *)
(* ===================================================================== *)

Lemma restores_app (l1 l2 : list event) :
  restores (l1 ++ l2) = restores l1 + restores l2.
Proof. unfold restores. rewrite List.filter_app, length_app. reflexivity. Qed.

Lemma reads_app (l1 l2 : list event) :
  reads (l1 ++ l2) = reads l1 + reads l2.
Proof. unfold reads. rewrite List.filter_app, length_app. reflexivity. Qed.

(** With primary and backup both corrupt and nothing refused, a load
    with [S n] frames left restores and re-reads [S n] times before the
    interpreter stops it, and then returns the empty list. *)
Lemma load_recipes_corrupt_backup_unwinds (n : nat) :
  forall (t : option content) (u : nat) (lg : list event),
  exists lg',
    load_recipes (S n) (mkWorld (Some Garbage) (Some Garbage) t [] u lg)
    = (Returns [], mkWorld (Some Garbage) (Some Garbage) t [] u lg')
    /\ restores lg' = restores lg + S n
    /\ reads lg' = reads lg + S n.
Proof.
  induction n as [|n IH]; intros t u lg.
  - eexists. split; [vm_compute; reflexivity|].
    rewrite !restores_app, !reads_app. cbn. lia.
  - remember (S n) as d eqn:Hd.
    cbn [load_recipes].
    unfold bind, try_except, exists_, read_json, copy, record, modify, print,
      next_fault, raise, ret; cbn.
    subst d.
    edestruct IH as (lg' & -> & Hr & Hd). cbn.
    eexists. split; [reflexivity|].
    rewrite Hr, Hd, !restores_app, !reads_app. cbn. lia.
Qed.

Lemma load_recipes_missing_file (d : nat) (w : World) :
  primary w = None -> load_recipes (S d) w = (Returns [], w).
Proof.
  destruct w as [p b t f u lg]; cbn [primary]; intros ->.
  cbn [load_recipes]. run_storage. reflexivity.
Qed.

Lemma load_recipes_read_refused (d : nat) (w : World) (c : content)
    (rest : list bool) :
  primary w = Some c ->
  faults w = true :: rest ->
  exists w', load_recipes (S d) w = (Raises IOError, w').
Proof.
  destruct w as [p b t f u lg]; cbn [primary faults]; intros -> ->.
  cbn [load_recipes]. run_storage. eexists. reflexivity.
Qed.


(** Without a backup, or with a backup whose copy is refused, the
    result is the empty list. *)
Lemma load_recipes_corrupt_no_backup (d : nat) (w : World) :
  primary w = Some Garbage ->
  backup w = None ->
  hd false (faults w) = false ->
  exists w', load_recipes (S d) w = (Returns [], w') /\ restores (log w') = restores (log w).
Proof.
  destruct w as [p b t f u lg]; cbn [primary backup faults log]; intros -> -> Hf.
  cbn [load_recipes]. run_storage.
  destruct f as [|x f]; [|cbn in Hf; subst x]; cbn;
    (eexists; split; [reflexivity|]); cbn [log];
    rewrite !restores_app; cbn; lia.
Qed.

Lemma load_recipes_corrupt_restore_refused (d : nat) (w : World)
    (c : content) (rest : list bool) :
  primary w = Some Garbage ->
  backup w = Some c ->
  faults w = false :: true :: rest ->
  exists w', load_recipes (S d) w = (Returns [], w') /\ primary w' = Some Garbage.
Proof.
  destruct w as [p b t f u lg]; cbn [primary backup faults]; intros -> -> ->.
  cbn [load_recipes]. run_storage. eexists. split; reflexivity.
Qed.

(* ===================================================================== *)
(** ** Storage: saving, and the round trip *)
(* ===================================================================== *)

Lemma ingredients_from_to_dict (l : list Ingredient) :
  ingredients_from (map ingredient_to_dict l) = Returns (map raw_of_ingredient l).
Proof.
  induction l as [|i l IH]; [reflexivity|].
  cbn [map ingredients_from]. cbn -[ingredients_from map]. rewrite IH. reflexivity.
Qed.

Lemma from_dict_to_dict (r : Recipe) (w : World) :
  from_dict (to_dict r) w
  = (Returns (raw_of_recipe r),
     mkWorld (primary w) (backup w) (temp w) (faults w) (S (uuid_next w)) (log w)).
Proof.
  destruct r as [i n ings s f c]. unfold from_dict, to_dict, bind, lift_outcome.
  cbn -[ingredients_from map uuid_str]. rewrite ingredients_from_to_dict.
  reflexivity.
Qed.

Lemma load_entries_to_dict (recipes : list Recipe) :
  forall (acc : list RawRecipe) (w : World),
    load_entries (map to_dict recipes) acc w
    = (Returns (acc ++ map raw_of_recipe recipes),
       mkWorld (primary w) (backup w) (temp w) (faults w)
               (length recipes + uuid_next w) (log w)).
Proof.
  induction recipes as [|r rest IH]; intros acc w.
  - cbn. rewrite app_nil_r. destruct w; reflexivity.
  - cbn [map load_entries]. unfold bind at 1, try_except, bind at 1.
    rewrite from_dict_to_dict. cbn [ret]. rewrite IH. cbn.
    rewrite <- app_assoc, Nat.add_succ_r. reflexivity.
Qed.

Lemma typed_all_raw_ingredients (l : list Ingredient) :
  typed_all typed_ingredient (map raw_of_ingredient l) = Some l.
Proof.
  induction l as [|[n q] l IH]; [reflexivity|].
  cbn [map typed_all]. rewrite IH. reflexivity.
Qed.

Lemma typed_recipe_raw (r : Recipe) : typed_recipe (raw_of_recipe r) = Some r.
Proof.
  destruct r as [i n ings s f c]. unfold typed_recipe, raw_of_recipe.
  cbn -[typed_all map]. rewrite typed_all_raw_ingredients.
  destruct c; reflexivity.
Qed.

Lemma typed_all_raw_recipes (l : list Recipe) :
  typed_all typed_recipe (map raw_of_recipe l) = Some l.
Proof.
  induction l as [|r l IH]; [reflexivity|].
  cbn [map typed_all]. rewrite typed_recipe_raw, IH. reflexivity.
Qed.

(** A save that returns has put the serialized collection in the
    primary file. *)
Lemma save_recipes_returns (recipes : list Recipe) (w w1 : World) :
  save_recipes recipes w = (Returns tt, w1) ->
  primary w1 = Some (Doc (JList (map to_dict recipes))).
Proof.
  destruct w as [p b t f u lg]. unfold save_recipes. run_storage.
  destruct p as [c|]; cbn;
    destruct f as [|[] [|[] [|[] f]]]; cbn;
    intros H; inversion H; reflexivity.
Qed.

(** A save raises [IOError] or returns, and nothing else. *)
Lemma save_recipes_outcome (recipes : list Recipe) (w : World) :
  exists w1, save_recipes recipes w = (Returns tt, w1)
             \/ save_recipes recipes w = (Raises IOError, w1).
Proof.
  destruct w as [p b t f u lg]. unfold save_recipes. run_storage.
  destruct p as [c|]; cbn;
    destruct f as [|[] [|[] [|[] f]]]; cbn; eauto.
Qed.

(** With nothing refused, a save returns. *)
Lemma save_recipes_unhindered (recipes : list Recipe) (w : World) :
  faults w = [] ->
  exists w1, save_recipes recipes w = (Returns tt, w1) /\ faults w1 = [].
Proof.
  destruct w as [p b t f u lg]; cbn [faults]; intros ->.
  unfold save_recipes. run_storage.
  destruct p as [c|]; cbn; eauto.
Qed.

Lemma load_recipes_saved_document (d : nat) (recipes : list Recipe) (w : World) :
  primary w = Some (Doc (JList (map to_dict recipes))) ->
  hd false (faults w) = false ->
  exists w', load_recipes (S d) w = (Returns (map raw_of_recipe recipes), w').
Proof.
  destruct w as [p b t f u lg]; cbn [primary faults]; intros -> Hf.
  cbn [load_recipes]. run_storage.
  destruct f as [|x f]; [|cbn in Hf; subst x]; cbn -[load_entries];
    rewrite load_entries_to_dict; cbn; eauto.
Qed.

(** C5.  Once [save_recipes recipes] has returned, a load whose read of
    the primary file is not refused returns objects with the ids, names,
    ingredient sequences, steps, favorite flags and categories of
    [recipes], in the same order; a manager built on that storage holds
    exactly [recipes]. *)
Theorem save_then_load_round_trip :
  forall (recipes : list Recipe) (w w1 : World) (d : nat),
    save_recipes recipes w = (Returns tt, w1) ->
    hd false (faults w1) = false ->
    fst (load_recipes (S d) w1) = Returns (map raw_of_recipe recipes)
    /\ typed_all typed_recipe (map raw_of_recipe recipes) = Some recipes
    /\ exists self, RecipeManager_init (S d) w1 = Some (Returns self)
                    /\ _recipes self = recipes.
Proof.
  intros recipes w w1 d Hsave Hf.
  pose proof (save_recipes_returns _ _ _ Hsave) as Hp.
  destruct (load_recipes_saved_document d recipes w1 Hp Hf) as [w' Hload].
  split; [rewrite Hload; reflexivity|].
  split; [apply typed_all_raw_recipes|].
  unfold RecipeManager_init, _load_recipes. cbn [storage].
  rewrite Hload, typed_all_raw_recipes. eexists. split; reflexivity.
Qed.

Lemma save_then_load_round_trip_witness :
  fst (load_recipes 1000
         (snd (save_recipes [Sample.tomato_soup; Sample.salad] Sample.fresh_world)))
  = Returns (map raw_of_recipe [Sample.tomato_soup; Sample.salad]).
Proof.
  apply (save_then_load_round_trip [Sample.tomato_soup; Sample.salad]
           Sample.fresh_world _ 999).
  - reflexivity.
  - reflexivity.
Defined.

(* ===================================================================== *)
(** ** Failures at load *)
(* ===================================================================== *)

(** C2, at the failing input.  Primary and backup are both corrupt and
    nothing is refused: with [S n] frames left, [load_recipes] copies the
    backup over the primary file and loads again [S n] times, not once,
    until the interpreter raises [RecursionError]; the handler of the
    last restore catches it and the empty list is returned. *)
Theorem load_recipes_corrupt_backup_retries_to_the_limit :
  forall n : nat,
    fst (load_recipes (S n) Sample.corrupt_world) = Returns []
    /\ restores (log (snd (load_recipes (S n) Sample.corrupt_world))) = S n
    /\ reads (log (snd (load_recipes (S n) Sample.corrupt_world))) = S n.
Proof.
  intros n. unfold Sample.corrupt_world.
  destruct (load_recipes_corrupt_backup_unwinds n None 0 []) as (lg' & -> & Hr & Hd).
  cbn [fst snd log]. auto.
Qed.

(** With a backup that parses, the restore and the second load happen
    once. *)
Lemma load_recipes_corrupt_good_backup (d : nat) (recipes : list Recipe)
    (w : World) :
  primary w = Some Garbage ->
  backup w = Some (Doc (JList (map to_dict recipes))) ->
  faults w = [] ->
  exists w',
    load_recipes (S (S d)) w = (Returns (map raw_of_recipe recipes), w')
    /\ primary w' = backup w
    /\ restores (log w') = restores (log w) + 1
    /\ reads (log w') = reads (log w) + 2.
Proof.
  destruct w as [p b t f u lg]; cbn [primary backup faults log]; intros -> -> ->.
  remember (S d) as d' eqn:Hd. cbn [load_recipes]. run_storage. subst d'.
  match goal with
  | |- context [load_recipes (S d) ?w] =>
      destruct (load_recipes_saved_document d recipes w eq_refl eq_refl) as [w' Hl];
      pose proof Hl as Hl'; revert Hl'
  end.
  cbn [load_recipes]. run_storage. rewrite load_entries_to_dict. cbn.
  intros Hw'. inversion Hw'; subst w'. clear Hw'.
  eexists. split; [reflexivity|]. cbn [primary log].
  rewrite !restores_app, !reads_app. cbn. repeat split; lia.
Qed.

(** C3, as amended.  When the primary file exists and its read is
    refused, [JSONStorage.load_recipes] raises [IOError]; the manager
    catches it like any other exception: the constructor returns, and the
    manager starts with the empty collection. *)
Theorem unreadable_file_gives_empty_manager :
  forall (d : nat) (w : World) (c : content) (rest : list bool),
    primary w = Some c ->
    faults w = true :: rest ->
    fst (load_recipes (S d) w) = Raises IOError
    /\ exists self, RecipeManager_init (S d) w = Some (Returns self)
                    /\ _recipes self = [].
Proof.
  intros d w c rest Hp Hf.
  destruct (load_recipes_read_refused d w c rest Hp Hf) as [w' Hl].
  split; [rewrite Hl; reflexivity|].
  unfold RecipeManager_init, _load_recipes. cbn [storage]. rewrite Hl.
  cbn. eexists. split; reflexivity.
Qed.

Lemma unreadable_file_gives_empty_manager_witness :
  fst (load_recipes 1000 Sample.unreadable_world) = Raises IOError
  /\ exists self, RecipeManager_init 1000 Sample.unreadable_world = Some (Returns self)
                  /\ _recipes self = [].
Proof.
  apply (unreadable_file_gives_empty_manager 999 Sample.unreadable_world
           (Doc (JList [to_dict Sample.toast])) []).
  - reflexivity.
  - reflexivity.
Defined.

(** C3, the counterexample.  The primary file exists and holds a valid
    document, its read is refused: the constructor does not raise, it
    returns a manager whose collection is empty. *)
Lemma unreadable_file_does_not_propagate :
  fst (load_recipes 1000 Sample.unreadable_world) = Raises IOError
  /\ RecipeManager_init 1000 Sample.unreadable_world <> Some (Raises IOError)
  /\ RecipeManager_init 1000 Sample.unreadable_world
     = Some (Returns
               (mkManager []
                  (mkWorld (Some (Doc (JList [to_dict Sample.toast]))) None None [] 0
                           [EvRead Primary; EvPrint "Error loading recipes"]))).
Proof.
  assert (H : RecipeManager_init 1000 Sample.unreadable_world
     = Some (Returns
               (mkManager []
                  (mkWorld (Some (Doc (JList [to_dict Sample.toast]))) None None [] 0
                           [EvRead Primary; EvPrint "Error loading recipes"]))))
    by (vm_compute; reflexivity).
  split; [vm_compute; reflexivity|]. split; [|exact H].
  rewrite H. discriminate.
Qed.

(* ===================================================================== *)
(** ** The manager: what a mutating operation leaves in memory *)
(* ===================================================================== *)

(** [_save_recipes] never touches [self._recipes]; it returns or raises
    [RuntimeError]. *)
Lemma _save_recipes_outcome (self : Manager) :
  exists w',
    _save_recipes self = (Returns tt, mkManager (_recipes self) w')
    \/ _save_recipes self = (Raises RuntimeError, mkManager (_recipes self) w').
Proof.
  unfold _save_recipes, try_except, bind, get_state, on_storage, raise.
  destruct (save_recipes_outcome (_recipes self) (storage self)) as [w1 [H|H]];
    rewrite H; eauto.
Qed.

Lemma _save_recipes_unhindered (self : Manager) :
  faults (storage self) = [] ->
  exists w',
    _save_recipes self = (Returns tt, mkManager (_recipes self) w')
    /\ faults w' = [].
Proof.
  intros Hf. unfold _save_recipes, try_except, bind, get_state, on_storage.
  destruct (save_recipes_unhindered (_recipes self) (storage self) Hf)
    as (w1 & H & Hf1).
  rewrite H. eauto.
Qed.

Lemma find_by_id_id (recipe_id : string) (l : list Recipe) (r : Recipe) :
  find_by_id recipe_id l = Some r -> r_id r = recipe_id.
Proof.
  induction l as [|x l IH]; cbn; [discriminate|].
  destruct (String.eqb_spec (r_id x) recipe_id) as [He|Hne]; [|exact IH].
  intros [= <-]. exact He.
Qed.

Lemma find_by_id_update (recipe_id : string) (f : Recipe -> Recipe)
    (l : list Recipe) (r : Recipe) :
  (forall x, r_id (f x) = r_id x) ->
  find_by_id recipe_id l = Some r ->
  find_by_id recipe_id (update_by_id recipe_id f l) = Some (f r).
Proof.
  intros Hid. induction l as [|x l IH]; cbn; [discriminate|].
  destruct (String.eqb_spec (r_id x) recipe_id) as [He|Hne].
  - intros [= <-]. cbn. rewrite Hid.
    destruct (String.eqb_spec (r_id x) recipe_id); [reflexivity|contradiction].
  - intros H. cbn.
    destruct (String.eqb_spec (r_id x) recipe_id); [contradiction|auto].
Qed.

Lemma update_by_id_fixed (recipe_id : string) (f : Recipe -> Recipe)
    (l : list Recipe) (r : Recipe) :
  find_by_id recipe_id l = Some r ->
  f r = r ->
  update_by_id recipe_id f l = l.
Proof.
  intros Hfind Hf. induction l as [|x l IH]; cbn in *; [reflexivity|].
  destruct (String.eqb (r_id x) recipe_id).
  - injection Hfind as ->. rewrite Hf. reflexivity.
  - rewrite IH by assumption. reflexivity.
Qed.

Lemma update_by_id_twice (recipe_id : string) (f g : Recipe -> Recipe)
    (l : list Recipe) :
  (forall x, r_id (f x) = r_id x) ->
  update_by_id recipe_id g (update_by_id recipe_id f l)
  = update_by_id recipe_id (fun x => g (f x)) l.
Proof.
  intros Hid. induction l as [|x l IH]; cbn; [reflexivity|].
  destruct (String.eqb (r_id x) recipe_id) eqn:He; cbn.
  - rewrite Hid, He. reflexivity.
  - rewrite He, IH. reflexivity.
Qed.

Lemma update_by_id_missing (recipe_id : string) (f : Recipe -> Recipe)
    (l : list Recipe) :
  find_by_id recipe_id l = None -> update_by_id recipe_id f l = l.
Proof.
  induction l as [|x l IH]; cbn; [reflexivity|].
  destruct (String.eqb (r_id x) recipe_id); [discriminate|].
  intros H. rewrite IH by assumption. reflexivity.
Qed.

Lemma delete_first_find (recipe_id : string) (l : list Recipe) :
  delete_first recipe_id l = None <-> find_by_id recipe_id l = None.
Proof.
  induction l as [|x l IH]; cbn; [tauto|].
  destruct (String.eqb (r_id x) recipe_id); [split; discriminate|].
  destruct (delete_first recipe_id l); [|tauto].
  split; [discriminate|]. intros H. apply IH in H. discriminate.
Qed.

Lemma delete_first_length (recipe_id : string) (l l' : list Recipe) :
  delete_first recipe_id l = Some l' -> length l = S (length l').
Proof.
  revert l'. induction l as [|x l IH]; intros l'; cbn; [discriminate|].
  destruct (String.eqb (r_id x) recipe_id).
  - intros [= <-]. reflexivity.
  - destruct (delete_first recipe_id l) as [l0|]; [|discriminate].
    intros [= <-]. cbn. rewrite (IH l0 eq_refl). reflexivity.
Qed.

(** [add_recipe]: a validation failure leaves the manager as it was; a
    save failure leaves the new recipe appended. *)
Lemma add_recipe_raises (name : string) (ingredients : list Ingredient)
    (steps : string) (favorite : bool) (category : option string)
    (self self' : Manager) (e : exn) :
  add_recipe name ingredients steps favorite category self = (Raises e, self') ->
  (e = ValueError /\ self' = self)
  \/ (e = RuntimeError
      /\ _recipes self'
         = _recipes self
           ++ [mkRecipe (uuid_str (uuid_next (storage self))) (PyStr.strip name)
                        ingredients steps favorite (normalize_category category)]).
Proof.
  unfold add_recipe.
  destruct (negb (PyStr.truthy name) || negb (PyStr.truthy (PyStr.strip name))).
  - intros [= <- <-]. left. auto.
  - run_manager.
    match goal with
    | |- context [_save_recipes ?m] =>
        destruct (_save_recipes_outcome m) as [w' [H|H]]; rewrite H
    end; cbn.
    + discriminate.
    + intros [= <- <-]. right. auto.
Qed.

(** [toggle_favorite]: an unknown id leaves the manager as it was; a save
    failure leaves the flag flipped. *)
Lemma toggle_favorite_raises (recipe_id : string) (self self' : Manager) (e : exn) :
  toggle_favorite recipe_id self = (Raises e, self') ->
  (e = ValueError /\ self' = self /\ get_recipe_by_id recipe_id self = None)
  \/ (e = RuntimeError
      /\ exists recipe,
           get_recipe_by_id recipe_id self = Some recipe
           /\ _recipes self'
              = update_by_id recipe_id (set_favorite (negb (r_favorite recipe)))
                             (_recipes self)).
Proof.
  unfold toggle_favorite. run_manager.
  destruct (get_recipe_by_id recipe_id self) as [recipe|] eqn:Hget.
  - run_manager.
    match goal with
    | |- context [_save_recipes ?m] =>
        destruct (_save_recipes_outcome m) as [w' [H|H]]; rewrite H
    end; cbn.
    + discriminate.
    + intros [= <- <-]. right. split; [reflexivity|]. eauto.
  - intros [= <- <-]. left. auto.
Qed.

(** [update_recipe]: an unknown id or an empty new name leaves the
    manager as it was; a save failure leaves the fields assigned. *)
Lemma update_recipe_raises (recipe_id : string) (name : option string)
    (ingredients : option (list Ingredient)) (steps : option string)
    (favorite : option bool) (category : option string)
    (self self' : Manager) (e : exn) :
  update_recipe recipe_id name ingredients steps favorite category self
    = (Raises e, self') ->
  (e = ValueError /\ self' = self)
  \/ (e = RuntimeError
      /\ _recipes self'
         = update_by_id recipe_id
             (apply_update name ingredients steps favorite category)
             (_recipes self)).
Proof.
  unfold update_recipe. run_manager.
  destruct (get_recipe_by_id recipe_id self) as [recipe|] eqn:Hget.
  - destruct (match name with
              | Some n => negb (PyStr.truthy (PyStr.strip n))
              | None => false
              end).
    + intros [= <- <-]. left. auto.
    + run_manager.
      match goal with
      | |- context [_save_recipes ?m] =>
          destruct (_save_recipes_outcome m) as [w' [H|H]]; rewrite H
      end; cbn.
      * discriminate.
      * intros [= <- <-]. right. auto.
  - intros [= <- <-]. left. auto.
Qed.

(** [delete_recipe] raises on a save failure only, and leaves the entry
    removed. *)
Lemma delete_recipe_raises (recipe_id : string) (self self' : Manager) (e : exn) :
  delete_recipe recipe_id self = (Raises e, self') ->
  e = RuntimeError
  /\ delete_first recipe_id (_recipes self) = Some (_recipes self')
  /\ length (_recipes self) = S (length (_recipes self')).
Proof.
  unfold delete_recipe. run_manager.
  destruct (delete_first recipe_id (_recipes self)) as [remaining|] eqn:Hdel.
  - run_manager.
    match goal with
    | |- context [_save_recipes ?m] =>
        destruct (_save_recipes_outcome m) as [w' [H|H]]; rewrite H
    end; cbn.
    + discriminate.
    + intros [= <- <-]. cbn. split; [reflexivity|]. split; [reflexivity|].
      eapply delete_first_length; eassumption.
  - discriminate.
Qed.

(** C1, as amended.  A mutating operation that raises for a validation
    or not-found failure ([ValueError]) leaves the manager as it was.
    One that raises because the save failed ([RuntimeError]) has changed
    the collection already and leaves it changed: the recipe appended,
    the flag flipped, the fields assigned, the entry removed. *)
Theorem failed_mutation_memory :
  (forall name ingredients steps favorite category self self' e,
      add_recipe name ingredients steps favorite category self = (Raises e, self') ->
      (e = ValueError /\ self' = self)
      \/ (e = RuntimeError
          /\ exists recipe, _recipes self' = _recipes self ++ [recipe]))
  /\ (forall recipe_id self self' e,
      toggle_favorite recipe_id self = (Raises e, self') ->
      (e = ValueError /\ self' = self)
      \/ (e = RuntimeError
          /\ exists recipe,
               get_recipe_by_id recipe_id self = Some recipe
               /\ get_recipe_by_id recipe_id self'
                  = Some (set_favorite (negb (r_favorite recipe)) recipe)))
  /\ (forall recipe_id name ingredients steps favorite category self self' e,
      update_recipe recipe_id name ingredients steps favorite category self
        = (Raises e, self') ->
      (e = ValueError /\ self' = self)
      \/ (e = RuntimeError
          /\ _recipes self'
             = update_by_id recipe_id
                 (apply_update name ingredients steps favorite category)
                 (_recipes self)))
  /\ (forall recipe_id self self' e,
      delete_recipe recipe_id self = (Raises e, self') ->
      e = RuntimeError
      /\ delete_first recipe_id (_recipes self) = Some (_recipes self')
      /\ length (_recipes self) = S (length (_recipes self'))).
Proof.
  repeat split.
  - intros name ingredients steps favorite category self self' e H.
    destruct (add_recipe_raises _ _ _ _ _ _ _ _ H) as [[-> ->]|[-> Hr]]; eauto.
  - intros recipe_id self self' e H.
    destruct (toggle_favorite_raises _ _ _ _ H)
      as [(-> & -> & _)|(-> & recipe & Hget & Hr)]; [auto|].
    right. split; [reflexivity|]. exists recipe. split; [exact Hget|].
    unfold get_recipe_by_id in *. rewrite Hr.
    apply find_by_id_update; [reflexivity|exact Hget].
  - intros recipe_id name ingredients steps favorite category self self' e H.
    destruct (update_recipe_raises _ _ _ _ _ _ _ _ _ H) as [[-> ->]|[-> Hr]]; auto.
  - apply (delete_recipe_raises _ _ _ _ H).
  - apply (delete_recipe_raises _ _ _ _ H).
  - apply (delete_recipe_raises _ _ _ _ H).
Qed.

Lemma failed_mutation_memory_witness :
  let self := Sample.kitchen Sample.refusing_world in
  let self' := snd (delete_recipe "2" self) in
  RuntimeError = RuntimeError
  /\ delete_first "2" (_recipes self) = Some (_recipes self')
  /\ length (_recipes self) = S (length (_recipes self')).
Proof.
  cbv zeta.
  apply (proj2 (proj2 (proj2 failed_mutation_memory)) "2"
           (Sample.kitchen Sample.refusing_world)).
  vm_compute. reflexivity.
Defined.

(** C1, the counterexample.  The storage refuses the write of the
    temporary file: [add_recipe] raises, and the collection, empty
    before the call, holds the new recipe after it. *)
Lemma add_recipe_failed_save_keeps_the_recipe :
  let self := mkManager [] Sample.refusing_world in
  let result := add_recipe "Toast" [mkIngredient "Bread" "2 slices"] "Toast it."
                           false None self in
  fst result = Raises RuntimeError
  /\ _recipes self = []
  /\ _recipes (snd result)
     = [mkRecipe "uuid-0" "Toast" [mkIngredient "Bread" "2 slices"] "Toast it."
                 false None]
  /\ _recipes (snd result) <> _recipes self.
Proof.
  cbv zeta. repeat split; try (vm_compute; reflexivity).
  vm_compute. discriminate.
Qed.

(* ===================================================================== *)
(** ** The category of a new or updated recipe *)
(* ===================================================================== *)

(** The empty category, and no category, become [None]. *)
Lemma normalize_category_empty :
  normalize_category (Some "") = None /\ normalize_category None = None.
Proof. split; reflexivity. Qed.

(** A category that is not empty is kept, stripped: white space alone
    becomes the empty string, and stays present. *)
Lemma normalize_category_blank (c : string) :
  c <> "" ->
  PyStr.all_space c = true ->
  normalize_category (Some c) = Some "".
Proof.
  intros Hne Hsp. unfold normalize_category.
  destruct c as [|a c']; [congruence|]. cbn [PyStr.truthy].
  rewrite (strip_all_space _ Hsp). reflexivity.
Qed.

(** C4, at the failing input.  With the category "   " (three blanks),
    [add_recipe] returns, and stores, a recipe whose category is the
    empty string, present; so does [update_recipe]. *)
Theorem blank_category_is_stored_as_empty_string :
  (let result := add_recipe "Toast" [] "" false (Some "   ")
                            (mkManager [] Sample.fresh_world) in
   fst result = Returns (mkRecipe "uuid-0" "Toast" [] "" false (Some ""))
   /\ _recipes (snd result) = [mkRecipe "uuid-0" "Toast" [] "" false (Some "")])
  /\ (let result := update_recipe "3" None None None None (Some "   ")
                                  (Sample.kitchen Sample.fresh_world) in
      fst result = Returns (set_category (Some "") Sample.toast)
      /\ _recipes (snd result)
         = [Sample.tomato_soup; Sample.salad; set_category (Some "") Sample.toast]).
Proof. cbv zeta. repeat split; vm_compute; reflexivity. Qed.

(* ===================================================================== *)
(** ** Toggling the favorite flag *)
(* ===================================================================== *)

Lemma set_favorite_back (r : Recipe) :
  set_favorite (r_favorite r) (set_favorite (negb (r_favorite r)) r) = r.
Proof. destruct r; reflexivity. Qed.

(** One call on an id that resolves: the flag is flipped in memory
    whether or not the save succeeds; the call returns the new value when
    it does. *)
Lemma toggle_favorite_found (recipe_id : string) (self : Manager) (recipe : Recipe) :
  get_recipe_by_id recipe_id self = Some recipe ->
  exists o w',
    toggle_favorite recipe_id self
    = (o, mkManager (update_by_id recipe_id
                       (set_favorite (negb (r_favorite recipe))) (_recipes self)) w')
    /\ (o = Returns (negb (r_favorite recipe)) \/ o = Raises RuntimeError)
    /\ (faults (storage self) = [] ->
        o = Returns (negb (r_favorite recipe)) /\ faults w' = []).
Proof.
  intros Hget. unfold toggle_favorite. run_manager. rewrite Hget. run_manager.
  pose proof (find_by_id_update recipe_id
                (set_favorite (negb (r_favorite recipe))) (_recipes self) recipe
                (fun x => eq_refl) Hget) as Hnew.
  match goal with
  | |- context [_save_recipes ?m] =>
      destruct (_save_recipes_outcome m) as [w' [H|H]];
      pose proof (_save_recipes_unhindered m) as Hok;
      rewrite H in *
  end; cbn [_recipes storage] in *.
  - unfold get_recipe_by_id. cbn [_recipes]. rewrite Hnew. cbn.
    eexists _, w'. split; [reflexivity|]. split; [auto|].
    intros Hf. destruct (Hok Hf) as (w'' & [= <-] & Hf''). auto.
  - eexists _, w'. split; [reflexivity|]. split; [auto|].
    intros Hf. destruct (Hok Hf) as (w'' & [=] & _).
Qed.

(** C8.  On an id that does not resolve, [toggle_favorite] raises
    [ValueError] and changes nothing.  On an id that resolves, two calls
    in a row leave the collection as it was, the flag being flipped in
    between; each call either returns the new value of the flag or
    raises because the save failed, and returns it when nothing is
    refused. *)
Theorem toggle_favorite_involution :
  forall (recipe_id : string) (self : Manager),
    match get_recipe_by_id recipe_id self with
    | None => toggle_favorite recipe_id self = (Raises ValueError, self)
    | Some recipe =>
        exists o1 self1 o2 self2,
          toggle_favorite recipe_id self = (o1, self1)
          /\ toggle_favorite recipe_id self1 = (o2, self2)
          /\ get_recipe_by_id recipe_id self1
             = Some (set_favorite (negb (r_favorite recipe)) recipe)
          /\ _recipes self2 = _recipes self
          /\ (o1 = Returns (negb (r_favorite recipe)) \/ o1 = Raises RuntimeError)
          /\ (o2 = Returns (r_favorite recipe) \/ o2 = Raises RuntimeError)
          /\ (faults (storage self) = [] ->
              o1 = Returns (negb (r_favorite recipe))
              /\ o2 = Returns (r_favorite recipe))
    end.
Proof.
  intros recipe_id self.
  destruct (get_recipe_by_id recipe_id self) as [recipe|] eqn:Hget.
  - destruct (toggle_favorite_found recipe_id self recipe Hget)
      as (o1 & w1 & H1 & Ho1 & Hf1).
    set (self1 := mkManager _ w1) in H1.
    assert (Hget1 : get_recipe_by_id recipe_id self1
                    = Some (set_favorite (negb (r_favorite recipe)) recipe)).
    { unfold get_recipe_by_id, self1. cbn [_recipes].
      apply find_by_id_update; [reflexivity|exact Hget]. }
    destruct (toggle_favorite_found recipe_id self1 _ Hget1)
      as (o2 & w2 & H2 & Ho2 & Hf2).
    cbn [r_favorite set_favorite] in H2, Ho2, Hf2.
    rewrite negb_involutive in H2, Ho2, Hf2.
    exists o1, self1, o2, (mkManager
      (update_by_id recipe_id (set_favorite (r_favorite recipe)) (_recipes self1)) w2).
    split; [exact H1|]. split; [exact H2|]. split; [exact Hget1|].
    split.
    { cbn [_recipes]. unfold self1. cbn [_recipes].
      rewrite update_by_id_twice by reflexivity.
      apply (update_by_id_fixed recipe_id _ _ recipe Hget).
      apply set_favorite_back. }
    split; [exact Ho1|]. split; [exact Ho2|].
    intros Hf. destruct (Hf1 Hf) as [-> Hw1]. split; [reflexivity|].
    apply Hf2. exact Hw1.
  - unfold toggle_favorite. run_manager. rewrite Hget. reflexivity.
Qed.

Lemma toggle_favorite_involution_witness :
  exists o1 self1 o2 self2,
    toggle_favorite "3" (Sample.kitchen Sample.fresh_world) = (o1, self1)
    /\ toggle_favorite "3" self1 = (o2, self2)
    /\ get_recipe_by_id "3" self1 = Some (set_favorite true Sample.toast)
    /\ _recipes self2 = [Sample.tomato_soup; Sample.salad; Sample.toast]
    /\ (o1 = Returns true \/ o1 = Raises RuntimeError)
    /\ (o2 = Returns false \/ o2 = Raises RuntimeError)
    /\ (faults Sample.fresh_world = [] -> o1 = Returns true /\ o2 = Returns false).
Proof.
  exact (toggle_favorite_involution "3" (Sample.kitchen Sample.fresh_world)).
Defined.


(* ===================================================================== *)
(** ** Strings: normal forms *)
(* ===================================================================== *)

Lemma lower_char_idempotent (c : ascii) :
  PyStr.lower_char (PyStr.lower_char c) = PyStr.lower_char c.
Proof. destruct c as [[] [] [] [] [] [] [] []]; vm_compute; reflexivity. Qed.

Lemma isspace_lower_char (c : ascii) :
  PyStr.isspace (PyStr.lower_char c) = PyStr.isspace c.
Proof. destruct c as [[] [] [] [] [] [] [] []]; vm_compute; reflexivity. Qed.

Lemma lower_idempotent (s : string) : PyStr.lower (PyStr.lower s) = PyStr.lower s.
Proof.
  induction s as [|c s IH]; cbn; [reflexivity|].
  rewrite lower_char_idempotent, IH. reflexivity.
Qed.

Lemma lower_empty (s : string) : PyStr.lower s = "" <-> s = "".
Proof. destruct s; cbn; split; congruence. Qed.

Lemma lower_lstrip (s : string) :
  PyStr.lower (PyStr.lstrip s) = PyStr.lstrip (PyStr.lower s).
Proof.
  induction s as [|c s IH]; cbn; [reflexivity|].
  rewrite isspace_lower_char. destruct (PyStr.isspace c); [exact IH|reflexivity].
Qed.

Lemma lower_rstrip (s : string) :
  PyStr.lower (PyStr.rstrip s) = PyStr.rstrip (PyStr.lower s).
Proof.
  induction s as [|c s IH]; cbn; [reflexivity|].
  rewrite <- IH, isspace_lower_char.
  destruct (PyStr.rstrip s) as [|a t]; cbn; [|reflexivity].
  destruct (PyStr.isspace c); reflexivity.
Qed.

Lemma lower_strip (s : string) :
  PyStr.lower (PyStr.strip s) = PyStr.strip (PyStr.lower s).
Proof. unfold PyStr.strip. rewrite lower_rstrip, lower_lstrip. reflexivity. Qed.

Lemma lstrip_head (s : string) (c : ascii) (t : string) :
  PyStr.lstrip s = String c t -> PyStr.isspace c = false.
Proof.
  induction s as [|a s IH]; cbn; [discriminate|].
  destruct (PyStr.isspace a) eqn:Ha; [exact IH|].
  intros [= <- _]. exact Ha.
Qed.

Lemma rstrip_head (s : string) (c : ascii) (t : string) :
  PyStr.rstrip s = String c t -> exists t', s = String c t'.
Proof.
  destruct s as [|a s]; cbn; [discriminate|].
  destruct (PyStr.rstrip s); [destruct (PyStr.isspace a)|];
    intros [= <- _]; eauto.
Qed.

Lemma rstrip_idempotent (s : string) :
  PyStr.rstrip (PyStr.rstrip s) = PyStr.rstrip s.
Proof.
  induction s as [|c s IH]; cbn; [reflexivity|].
  destruct (PyStr.rstrip s) as [|a t] eqn:Hr.
  - destruct (PyStr.isspace c) eqn:Hc; cbn; [reflexivity|].
    rewrite Hc. reflexivity.
  - cbn [PyStr.rstrip]. cbn [PyStr.rstrip] in IH. rewrite IH. reflexivity.
Qed.

Lemma strip_idempotent (s : string) : PyStr.strip (PyStr.strip s) = PyStr.strip s.
Proof.
  unfold PyStr.strip.
  destruct (PyStr.rstrip (PyStr.lstrip s)) as [|c t] eqn:Hr; [reflexivity|].
  destruct (rstrip_head _ _ _ Hr) as [t' Hl].
  pose proof (lstrip_head _ _ _ Hl) as Hc.
  cbn [PyStr.lstrip]. rewrite Hc, <- Hr. apply rstrip_idempotent.
Qed.

Lemma normalize_idempotent (name : string) :
  _normalize_ingredient_name (_normalize_ingredient_name name)
  = _normalize_ingredient_name name.
Proof.
  unfold _normalize_ingredient_name.
  rewrite lower_strip, lower_idempotent. apply strip_idempotent.
Qed.

Lemma startswith_rstrip (s : string) : PyStr.startswith (PyStr.rstrip s) s = true.
Proof.
  induction s as [|c s IH]; cbn; [reflexivity|].
  destruct (PyStr.rstrip s) as [|a t].
  - destruct (PyStr.isspace c); cbn; [reflexivity|].
    rewrite Ascii.eqb_refl. reflexivity.
  - cbn [PyStr.startswith]. rewrite Ascii.eqb_refl. exact IH.
Qed.

Lemma contains_startswith (p s : string) :
  PyStr.startswith p s = true -> PyStr.contains p s = true.
Proof. intros H. destruct s; cbn [PyStr.contains]; rewrite H; reflexivity. Qed.

Lemma contains_lstrip (p s : string) :
  PyStr.contains p (PyStr.lstrip s) = true -> PyStr.contains p s = true.
Proof.
  induction s as [|c s IH]; cbn [PyStr.lstrip]; [auto|].
  destruct (PyStr.isspace c); [|auto].
  intros H. cbn [PyStr.contains]. rewrite (IH H). apply orb_true_r.
Qed.

Lemma contains_strip (s : string) : PyStr.contains (PyStr.strip s) s = true.
Proof.
  apply contains_lstrip, contains_startswith. unfold PyStr.strip.
  apply startswith_rstrip.
Qed.

(* ===================================================================== *)
(** ** Search: further properties *)
(* ===================================================================== *)

Lemma filter_bool_sublist {A} (f : A -> bool) (l : list A) :
  sublist (List.filter f l) l.
Proof.
  induction l as [|x l IH]; cbn; [constructor|].
  destruct (f x); [apply sublist_skip|apply sublist_cons]; exact IH.
Qed.

(** Whatever the term, the result of a search is a sub-sequence of the
    collection: no recipe is invented, repeated or reordered. *)
Theorem search_recipes_sublist :
  forall (term : string) (self : Manager),
    sublist (search_recipes term self) (_recipes self).
Proof.
  intros term self. unfold search_recipes.
  destruct (negb (PyStr.truthy term)); [apply sublist_nil_l|].
  rewrite search_loop_filter. cbn [app]. apply filter_bool_sublist.
Qed.

(** Two terms that differ in case only select the same recipes. *)
Theorem search_recipes_ignores_case_of_term :
  forall (t1 t2 : string) (self : Manager),
    PyStr.lower t1 = PyStr.lower t2 ->
    search_recipes t1 self = search_recipes t2 self.
Proof.
  intros t1 t2 self H. unfold search_recipes. rewrite H.
  destruct t1 as [|a t1], t2 as [|b t2]; cbn in H |- *;
    try discriminate; reflexivity.
Qed.

Lemma search_recipes_ignores_case_of_term_witness :
  search_recipes "TOMATO" (Sample.kitchen Sample.fresh_world)
  = search_recipes "tomato" (Sample.kitchen Sample.fresh_world).
Proof.
  apply (search_recipes_ignores_case_of_term "TOMATO" "tomato"
           (Sample.kitchen Sample.fresh_world)).
  reflexivity.
Defined.

(** A recipe of the collection is found by its own name and by the name
    of any of its ingredients, typed in whatever case and with whatever
    blanks around, as long as the term is not the empty string. *)
Theorem search_recipes_finds_by_own_names :
  forall (self : Manager) (recipe : Recipe) (term : string),
    In recipe (_recipes self) ->
    term <> "" ->
    (term = r_name recipe
     \/ exists ingredient,
          In ingredient (r_ingredients recipe) /\ term = ing_name ingredient) ->
    In recipe (search_recipes term self).
Proof.
  intros self recipe term Hin Hne Hterm. unfold search_recipes.
  destruct term as [|c term']; [congruence|]. cbn [PyStr.truthy negb].
  rewrite search_loop_filter. cbn [app]. apply List.filter_In. split; [exact Hin|].
  unfold recipe_matches. apply orb_true_iff.
  destruct Hterm as [->|(i & Hi & ->)].
  - left. apply contains_strip.
  - right. apply existsb_exists. exists i. split; [exact Hi|apply contains_strip].
Qed.

Lemma search_recipes_finds_by_own_names_witness :
  In Sample.salad (search_recipes "Tomato Paste" (Sample.kitchen Sample.fresh_world)).
Proof.
  apply (search_recipes_finds_by_own_names (Sample.kitchen Sample.fresh_world)
           Sample.salad "Tomato Paste").
  - cbn. auto.
  - discriminate.
  - right. exists (mkIngredient "Tomato Paste" "1 tbsp"). cbn. auto.
Defined.

(* ===================================================================== *)
(** ** Shopping lists: further properties *)
(* ===================================================================== *)

Lemma quantities_under_app (key_of : string -> string) (key : string)
    (l1 l2 : list Ingredient) :
  quantities_under key_of key (l1 ++ l2)
  = quantities_under key_of key l1 ++ quantities_under key_of key l2.
Proof. unfold quantities_under. rewrite List.filter_app, map_app. reflexivity. Qed.

Lemma quantities_under_key (key_of : string -> string) (key : string)
    (l : list Ingredient) :
  quantities_under key_of key l <> [] ->
  exists i, In i l /\ key_of (ing_name i) = key.
Proof.
  unfold quantities_under. intros H.
  destruct (List.filter _ l) as [|i rest] eqn:Hf; [contradiction H; reflexivity|].
  assert (Hi : In i (List.filter (fun i => String.eqb (key_of (ing_name i)) key) l))
    by (rewrite Hf; left; reflexivity).
  apply List.filter_In in Hi as [Hi Hk]. exists i. split; [exact Hi|].
  apply String.eqb_eq. exact Hk.
Qed.

Lemma generate_lookup (recipes : list Recipe) (key : string) :
  generate recipes !! key
  = match quantities_under _normalize_ingredient_name key
                           (flat_map r_ingredients recipes) with
    | [] => None
    | quantities => Some quantities
    end.
Proof.
  unfold generate. rewrite generate_loop_aggregate, aggregate_lookup, lookup_empty.
  reflexivity.
Qed.

(** Every key of the shopping list is in normal form (lowercase, no
    white space around), and is bound to at least one quantity. *)
Theorem generate_keys_normalized :
  forall (recipes : list Recipe) (key : string) (quantities : list string),
    generate recipes !! key = Some quantities ->
    _normalize_ingredient_name key = key /\ quantities <> [].
Proof.
  intros recipes key quantities. rewrite generate_lookup.
  destruct (quantities_under _ key _) as [|q qs] eqn:Hq; [discriminate|].
  intros [= <-]. split; [|discriminate].
  destruct (quantities_under_key _normalize_ingredient_name key
              (flat_map r_ingredients recipes)) as (i & _ & <-).
  - rewrite Hq. discriminate.
  - apply normalize_idempotent.
Qed.

Lemma generate_keys_normalized_witness :
  _normalize_ingredient_name "tomato" = "tomato" /\ ["2"; " 200g "] <> [].
Proof.
  apply (generate_keys_normalized [Sample.tomato_soup; Sample.salad] "tomato").
  vm_compute. reflexivity.
Defined.

(** The shopping list of two lists of recipes put end to end is, key by
    key, the quantities of the first followed by those of the second. *)
Theorem generate_app :
  forall (recipes1 recipes2 : list Recipe) (key : string),
    default [] (generate (recipes1 ++ recipes2) !! key)
    = default [] (generate recipes1 !! key) ++ default [] (generate recipes2 !! key).
Proof.
  intros recipes1 recipes2 key. rewrite !generate_lookup.
  rewrite flat_map_app, quantities_under_app.
  destruct (quantities_under _ key (flat_map r_ingredients recipes1)) as [|a l1];
    destruct (quantities_under _ key (flat_map r_ingredients recipes2)) as [|b l2];
    cbn; rewrite ?app_nil_r; reflexivity.
Qed.

Lemma total_items_append (key quantity : string) (m : gmap string (list string)) :
  get_total_items (append_quantity key quantity m) = S (get_total_items m).
Proof.
  unfold get_total_items, append_quantity.
  assert (Hcomm : forall (m' : gmap string (list string)) j1 j2 z1 z2 (y : nat),
             j1 <> j2 -> m' !! j1 = Some z1 -> m' !! j2 = Some z2 ->
             length z1 + (length z2 + y) = length z2 + (length z1 + y))
    by (intros; lia).
  destruct (m !! key) as [v|] eqn:Hk.
  - rewrite <- insert_delete_eq.
    rewrite map_fold_insert_L; [|apply Hcomm|apply lookup_delete_eq].
    rewrite (map_fold_delete_L _ _ key v m); [|apply Hcomm|exact Hk].
    cbn [default]. unfold id. rewrite length_app. cbn. lia.
  - rewrite map_fold_insert_L; [|apply Hcomm|exact Hk]. reflexivity.
Qed.

Lemma total_items_aggregate (key_of : string -> string) (l : list Ingredient)
    (m : gmap string (list string)) :
  get_total_items (aggregate key_of l m) = length l + get_total_items m.
Proof.
  revert m. induction l as [|i l IH]; intros m; cbn [aggregate]; [reflexivity|].
  rewrite IH, total_items_append. cbn. lia.
Qed.

(** Aggregation loses nothing and adds nothing: the quantity lists of
    the shopping list hold, in total, one string per ingredient of the
    input. *)
Theorem get_total_items_generate :
  forall recipes : list Recipe,
    get_total_items (generate recipes)
    = length (flat_map r_ingredients recipes).
Proof.
  intros recipes. unfold generate.
  rewrite generate_loop_aggregate, total_items_aggregate.
  unfold get_total_items. rewrite map_fold_empty. lia.
Qed.

Lemma size_le_total_items (m : gmap string (list string)) :
  (forall k v, m !! k = Some v -> v <> []) ->
  size m <= get_total_items m.
Proof.
  induction m as [|k v m Hk IH] using map_ind; intros Hne.
  - rewrite map_size_empty. lia.
  - rewrite map_size_insert_None by exact Hk. unfold get_total_items.
    rewrite map_fold_insert_L; [|intros; lia|exact Hk].
    assert (Hv : v <> []) by (apply (Hne k); apply lookup_insert_eq).
    assert (IH' : size m <= get_total_items m).
    { apply IH. intros k' v' Hk'. apply (Hne k').
      rewrite lookup_insert_ne; [exact Hk'|]. intros ->. congruence. }
    unfold get_total_items in IH'. destruct v; [congruence|]. cbn. lia.
Qed.

(** The number of distinct ingredients never exceeds the number of
    items. *)
Theorem get_ingredient_count_le_total :
  forall recipes : list Recipe,
    get_ingredient_count (generate recipes) <= get_total_items (generate recipes).
Proof.
  intros recipes. unfold get_ingredient_count. apply size_le_total_items.
  intros k v Hk. rewrite generate_lookup in Hk.
  destruct (quantities_under _ k _); [discriminate|].
  injection Hk as <-. discriminate.
Qed.

Lemma aggregate_ext (f g : string -> string) (l : list Ingredient)
    (m : gmap string (list string)) :
  (forall i, In i l -> f (ing_name i) = g (ing_name i)) ->
  aggregate f l m = aggregate g l m.
Proof.
  revert m. induction l as [|i l IH]; intros m H; cbn [aggregate]; [reflexivity|].
  rewrite (H i) by (left; reflexivity).
  apply IH. intros j Hj. apply H. right. exact Hj.
Qed.

(** When every ingredient name of the selected recipes is already
    lowercase and free of surrounding white space, the manager's shopping
    list and the generator's are the same map. *)
Theorem shopping_lists_agree_on_normalized_names :
  forall (self : Manager) (recipe_ids : list string),
    (forall recipe ingredient,
        In recipe (resolve self recipe_ids) ->
        In ingredient (r_ingredients recipe) ->
        _normalize_ingredient_name (ing_name ingredient) = ing_name ingredient) ->
    generate_shopping_list recipe_ids self = generate (resolve self recipe_ids).
Proof.
  intros self recipe_ids H. unfold generate_shopping_list, generate.
  rewrite shopping_loop_aggregate, generate_loop_aggregate.
  apply aggregate_ext. intros i Hi.
  apply in_flat_map in Hi as (r & Hr & Hi). symmetry. eapply H; eassumption.
Qed.

Lemma shopping_lists_agree_on_normalized_names_witness :
  generate_shopping_list ["p2"; "p1"; "p9"] (Pantry.shelf Sample.fresh_world)
  = generate (resolve (Pantry.shelf Sample.fresh_world) ["p2"; "p1"; "p9"]).
Proof.
  apply (shopping_lists_agree_on_normalized_names
           (Pantry.shelf Sample.fresh_world) ["p2"; "p1"; "p9"]).
  intros recipe ingredient Hr Hi.
  cbn in Hr. destruct Hr as [<-|[<-|[]]];
    cbn in Hi; destruct Hi as [<-|[<-|[]]]; reflexivity.
Defined.

(* ===================================================================== *)
(** ** Deserialization: which entries are accepted *)
(* ===================================================================== *)

Lemma ingredients_from_outcome (items : list json) :
  if forallb ingredient_entry_ok items
  then exists l, ingredients_from items = Returns l /\ length l = length items
  else ingredients_from items = Raises KeyError
       \/ ingredients_from items = Raises TypeError.
Proof.
  induction items as [|ing rest IH]; cbn [forallb ingredients_from].
  - exists []. split; reflexivity.
  - destruct ing as [| | | | |kv]; cbn [ingredient_entry_ok subscript andb]; auto.
    destruct (dict_get "name" kv) as [n|]; cbn [andb]; [|auto].
    destruct (dict_get "quantity" kv) as [q|]; cbn [andb]; [|auto].
    destruct (forallb ingredient_entry_ok rest).
    + destruct IH as (l & -> & Hl). eexists. split; [reflexivity|].
      cbn. rewrite Hl. reflexivity.
    + destruct IH as [-> | ->]; auto.
Qed.

Lemma iterate_raises (v : json) (e : exn) :
  iterate v = Raises e -> e = TypeError.
Proof. destruct v; cbn; congruence. Qed.

(** [Recipe.from_dict] on any JSON value.  A value that is not an object
    raises [AttributeError].  An object whose "ingredients" are absent or
    well formed gives a recipe, with the defaults of the code for the
    members it lacks, and draws one uuid.  Any other object raises
    [KeyError] or [TypeError], and leaves the world as it was. *)
Theorem from_dict_outcome :
  forall (data : json) (w : World),
    match data with
    | JDict kv =>
        if ingredients_acceptable kv
        then exists ingredients,
               from_dict data w
               = (Returns
                    (mkRawRecipe
                       (dict_get_default "id" (JStr (uuid_str (uuid_next w))) kv)
                       (dict_get_default "name" (JStr "") kv)
                       ingredients
                       (dict_get_default "steps" (JStr "") kv)
                       (dict_get_default "favorite" (JBool false) kv)
                       (dict_get_default "category" JNull kv)),
                  bump_uuid w)
        else from_dict data w = (Raises KeyError, w)
             \/ from_dict data w = (Raises TypeError, w)
    | _ => from_dict data w = (Raises AttributeError, w)
    end.
Proof.
  intros data w. destruct data as [| | | | |kv]; try reflexivity.
  unfold ingredients_acceptable, from_dict, bind, lift_outcome.
  destruct (iterate (dict_get_default "ingredients" (JList []) kv))
    as [items|e] eqn:Hit.
  - pose proof (ingredients_from_outcome items) as H.
    destruct (forallb ingredient_entry_ok items).
    + destruct H as (l & -> & _). exists l. reflexivity.
    + destruct H as [-> | ->]; auto.
  - rewrite (iterate_raises _ _ Hit). auto.
Qed.

Lemma from_dict_dict_cases (kv : list (string * json)) (w : World) :
  (exists r, from_dict (JDict kv) w = (Returns r, bump_uuid w))
  \/ (exists e, from_dict (JDict kv) w = (Raises e, w)
                /\ (e = KeyError \/ e = TypeError)
                /\ ingredients_acceptable kv = false).
Proof.
  pose proof (from_dict_outcome (JDict kv) w) as H. cbn beta iota in H.
  destruct (ingredients_acceptable kv).
  - destruct H as [l H]. left. eauto.
  - right. destruct H as [H|H]; eauto.
Qed.

(** [from_dict] reads the uuid counter only and writes it only: its
    outcome and the new counter are the same whatever the files, the
    refusals to come and the log. *)
Lemma from_dict_frame (data : json) (u : nat) :
  exists (o : outcome RawRecipe) (u' : nat),
    (forall p b t f lg,
        from_dict data (mkWorld p b t f u lg) = (o, mkWorld p b t f u' lg))
    /\ (forall e, o = Raises e ->
          u' = u
          /\ if is_dict data then e = KeyError \/ e = TypeError
             else e = AttributeError).
Proof.
  destruct data as [| | | | |kv];
    try (exists (Raises AttributeError), u; split;
         [reflexivity | intros e [= <-]; split; reflexivity]).
  unfold from_dict, bind, lift_outcome, uuid4, ret. cbn [is_dict].
  destruct (iterate (dict_get_default "ingredients" (JList []) kv))
    as [items|e0] eqn:Hit.
  - pose proof (ingredients_from_outcome items) as H.
    destruct (ingredients_from items) as [l|e1] eqn:Hing.
    + eexists _, _. split; [intros; cbn; reflexivity|]. intros e [=].
    + exists (Raises e1), u. split; [reflexivity|]. intros e [= <-].
      split; [reflexivity|].
      destruct (forallb ingredient_entry_ok items).
      * destruct H as (l & [=] & _).
      * destruct H as [[= ->]|[= ->]]; auto.
  - exists (Raises e0), u. split; [reflexivity|]. intros e [= <-].
    split; [reflexivity|]. right. exact (iterate_raises _ _ Hit).
Qed.

(** The loop over the entries reads and writes the uuid counter and
    appends to the log; it raises for an entry that is not an object,
    and for nothing else. *)
Lemma load_entries_frame (entries : list json) :
  forall (acc : list RawRecipe) (u : nat),
  exists (o : outcome (list RawRecipe)) (u' : nat) (prints : list event),
    (forall p b t f lg,
        load_entries entries acc (mkWorld p b t f u lg)
        = (o, mkWorld p b t f u' (lg ++ prints)))
    /\ (forall e, o = Raises e ->
          e = AttributeError /\ forallb is_dict entries = false)
    /\ (forallb is_dict entries = true -> exists l, o = Returns l).
Proof.
  induction entries as [|j rest IH]; intros acc u.
  - exists (Returns acc), u, []. split; [|split].
    + intros. cbn. rewrite app_nil_r. reflexivity.
    + intros e [=].
    + eauto.
  - destruct (from_dict_frame j u) as (o & u1 & Hfd & Hcls).
    destruct o as [r|e].
    + destruct (IH (acc ++ [r]) u1) as (o' & u' & pr & Hle & Hr & Hd).
      exists o', u', pr. split; [|split].
      * intros. cbn [load_entries]. unfold bind at 1, try_except, bind at 1.
        rewrite Hfd. cbn [ret]. apply Hle.
      * intros e He. destruct (Hr e He) as [-> Hf]. split; [reflexivity|].
        cbn [forallb]. rewrite Hf. apply andb_false_r.
      * intros Hall. cbn [forallb] in Hall. apply andb_prop in Hall as [_ Hall]. auto.
    + destruct (Hcls e eq_refl) as [-> Hcls']. clear Hcls.
      rename Hcls' into Hcls. destruct (is_dict j) eqn:Hj.
      * destruct (IH acc u) as (o' & u' & pr & Hle & Hr & Hd).
        exists o', u', (EvPrint "Warning: Skipping invalid recipe entry" :: pr).
        split; [|split].
        -- intros. cbn [load_entries]. unfold bind at 1, try_except, bind at 1.
           rewrite Hfd.
           replace (lg ++ EvPrint "Warning: Skipping invalid recipe entry" :: pr)
             with ((lg ++ [EvPrint "Warning: Skipping invalid recipe entry"]) ++ pr)
             by (rewrite <- app_assoc; reflexivity).
           rewrite <- Hle.
           destruct Hcls as [-> | ->]; reflexivity.
        -- intros e' He'. destruct (Hr e' He') as [-> Hf]. split; [reflexivity|].
           cbn [forallb]. rewrite Hf. apply andb_false_r.
        -- intros Hall. cbn [forallb] in Hall.
           apply andb_prop in Hall as [_ Hall]. auto.
      * subst e. exists (Raises AttributeError), u, []. split; [|split].
        -- intros. cbn [load_entries]. unfold bind at 1, try_except, bind at 1.
           rewrite Hfd. rewrite app_nil_r. reflexivity.
        -- intros e [= <-]. split; [reflexivity|]. cbn [forallb]. rewrite Hj. reflexivity.
        -- cbn [forallb]. rewrite Hj. discriminate.
Qed.

(* ===================================================================== *)
(** ** Loading a document that parses *)
(* ===================================================================== *)

Lemma load_entries_app (es1 es2 : list json) :
  forall (acc : list RawRecipe) (w : World),
    load_entries (es1 ++ es2) acc w
    = match load_entries es1 acc w with
      | (Returns l, w') => load_entries es2 l w'
      | (Raises e, w') => (Raises e, w')
      end.
Proof.
  induction es1 as [|j es1 IH]; intros acc w; [reflexivity|].
  cbn [app load_entries]. unfold bind.
  destruct (try_except _ _ w) as [[a|e] w']; [apply IH|reflexivity].
Qed.

(** What [load_recipes] does once the primary file has been read and
    parsed. *)
Lemma load_recipes_document (d : nat) (w : World) (data : json) :
  primary w = Some (Doc data) ->
  hd false (faults w) = false ->
  load_recipes (S d) w
  = match recipes_data_of data with
    | None => (Returns [], after_read w)
    | Some recipes_data =>
        match iterate recipes_data with
        | Raises _ => (Raises TypeError, after_read w)
        | Returns entries => load_entries entries [] (after_read w)
        end
    end.
Proof.
  destruct w as [p b t f u lg]; cbn [primary faults]; intros -> Hf.
  assert (Hw : after_read (mkWorld (Some (Doc data)) b t f u lg)
               = mkWorld (Some (Doc data)) b t (tl f) u (lg ++ [EvRead Primary]))
    by reflexivity.
  rewrite Hw. clear Hw.
  cbn [load_recipes]. run_storage. unfold recipes_data_of.
  destruct f as [|x f]; [|cbn in Hf; subst x]; cbn -[load_entries];
    (destruct (match data with
               | JDict kv => dict_get "recipes" kv
               | JList _ => Some data
               | _ => None
               end) as [v|]; [|reflexivity]);
    (destruct (iterate v) as [es|e] eqn:Hit;
       [|rewrite (iterate_raises _ _ Hit); reflexivity]);
    destruct (load_entries_frame es [] u) as (o & u' & pr & Hle & Hr & _);
    rewrite Hle; (destruct o as [l|e]; [reflexivity|]);
    destruct (Hr e eq_refl) as [-> _]; reflexivity.
Qed.

(** The legacy wrapped form: an object whose "recipes" member is an
    array is loaded as that array would be. *)
Theorem load_recipes_wrapped_format :
  forall (d : nat) (w : World) (kv : list (string * json)) (entries : list json),
    primary w = Some (Doc (JDict kv)) ->
    dict_get "recipes" kv = Some (JList entries) ->
    fst (load_recipes (S d) w)
    = fst (load_recipes (S d) (with_primary (Some (Doc (JList entries))) w)).
Proof.
  intros d [p b t f u lg] kv entries; cbn [primary]; intros -> Hk.
  destruct f as [|[] f].
  - rewrite (load_recipes_document d _ (JDict kv)) by reflexivity.
    rewrite (load_recipes_document d _ (JList entries)) by reflexivity.
    cbn [recipes_data_of iterate]. rewrite Hk. cbn [iterate].
    destruct (load_entries_frame entries [] u) as (o & u' & pr & Hle & _).
    unfold after_read, with_primary. cbn. rewrite !Hle. reflexivity.
  - cbn [load_recipes]. run_storage. reflexivity.
  - rewrite (load_recipes_document d _ (JDict kv)) by reflexivity.
    rewrite (load_recipes_document d _ (JList entries)) by reflexivity.
    cbn [recipes_data_of iterate]. rewrite Hk. cbn [iterate].
    destruct (load_entries_frame entries [] u) as (o & u' & pr & Hle & _).
    unfold after_read, with_primary. cbn. rewrite !Hle. reflexivity.
Qed.

Lemma load_recipes_wrapped_format_witness :
  fst (load_recipes 1000
         (mkWorld (Some (Doc (JDict [("version", JNum 1);
                                     ("recipes", JList [to_dict Sample.toast])])))
                  None None [] 0 []))
  = fst (load_recipes 1000
           (with_primary (Some (Doc (JList [to_dict Sample.toast])))
              (mkWorld (Some (Doc (JDict [("version", JNum 1);
                                          ("recipes", JList [to_dict Sample.toast])])))
                       None None [] 0 []))).
Proof.
  apply (load_recipes_wrapped_format 999 _
           [("version", JNum 1); ("recipes", JList [to_dict Sample.toast])]
           [to_dict Sample.toast]).
  - reflexivity.
  - reflexivity.
Defined.

(** A document that parses but is neither an array nor an object with
    a "recipes" member gives the empty list: nothing is raised, and no
    file is changed. *)
Theorem load_recipes_other_shape :
  forall (d : nat) (w : World) (data : json),
    primary w = Some (Doc data) ->
    hd false (faults w) = false ->
    accepted_shape data = false ->
    load_recipes (S d) w = (Returns [], after_read w).
Proof.
  intros d w data Hp Hf Hshape.
  rewrite (load_recipes_document d w data Hp Hf).
  destruct data as [| | | | |kv]; try reflexivity; cbn in Hshape |- *.
  - discriminate.
  - destruct (dict_get "recipes" kv); [discriminate|reflexivity].
Qed.

Lemma load_recipes_other_shape_witness :
  load_recipes 1000 (mkWorld (Some (Doc (JDict [("items", JList [])]))) None None [] 0 [])
  = (Returns [],
     after_read (mkWorld (Some (Doc (JDict [("items", JList [])]))) None None [] 0 [])).
Proof.
  apply (load_recipes_other_shape 999 _ (JDict [("items", JList [])])).
  - reflexivity.
  - reflexivity.
  - reflexivity.
Defined.

(** One entry whose ingredients are malformed (an item that is not an
    object, or lacks "name" or "quantity") is skipped; the entries
    around it are loaded. *)
Theorem load_recipes_skips_malformed_entry :
  forall (d : nat) (w : World) (before after : list Recipe)
         (kv : list (string * json)),
    primary w
    = Some (Doc (JList (map to_dict before ++ JDict kv :: map to_dict after))) ->
    hd false (faults w) = false ->
    ingredients_acceptable kv = false ->
    fst (load_recipes (S d) w) = Returns (map raw_of_recipe (before ++ after)).
Proof.
  intros d w before after kv Hp Hf Hbad.
  rewrite (load_recipes_document d w _ Hp Hf). cbn [recipes_data_of iterate].
  rewrite load_entries_app, load_entries_to_dict. cbn [app].
  cbn [load_entries]. unfold bind at 1, try_except, bind at 1.
  match goal with
  | |- context [from_dict (JDict kv) ?w1] =>
      destruct (from_dict_dict_cases kv w1)
        as [[r Hr]|(e & He & Hcls & _)];
      [pose proof (from_dict_outcome (JDict kv) w1) as Ho; cbn beta iota in Ho;
       rewrite Hbad in Ho; rewrite Hr in Ho; destruct Ho as [Ho|Ho]; discriminate
      |rewrite He]
  end.
  assert (Hskip : forall w1,
             (match e with
              | KeyError | TypeError =>
                  print "Warning: Skipping invalid recipe entry" ;;;
                  ret (map raw_of_recipe before)
              | _ => raise e
              end)%py w1
             = (Returns (map raw_of_recipe before),
                logged (EvPrint "Warning: Skipping invalid recipe entry") w1)).
  { intros w1. destruct Hcls as [-> | ->]; reflexivity. }
  rewrite Hskip. rewrite load_entries_to_dict. cbn [fst].
  rewrite map_app. reflexivity.
Qed.

Lemma load_recipes_skips_malformed_entry_witness :
  fst (load_recipes 1000
         (mkWorld
            (Some (Doc (JList (map to_dict [Sample.tomato_soup]
                               ++ JDict [("name", JStr "Broth");
                                         ("ingredients",
                                          JList [JDict [("name", JStr "salt")]])]
                               :: map to_dict [Sample.toast]))))
            None None [] 0 []))
  = Returns (map raw_of_recipe ([Sample.tomato_soup] ++ [Sample.toast])).
Proof.
  apply (load_recipes_skips_malformed_entry 999 _ [Sample.tomato_soup] [Sample.toast]
           [("name", JStr "Broth");
            ("ingredients", JList [JDict [("name", JStr "salt")]])]).
  - reflexivity.
  - reflexivity.
  - reflexivity.
Defined.

(** An entry that is not an object is not skipped: after entries that
    are objects, it makes [load_recipes] raise [AttributeError], and the
    recipes read so far are lost; a manager built on that file starts
    with the empty collection. *)
Theorem load_recipes_non_object_entry_aborts :
  forall (d : nat) (w : World) (before after : list json) (bad : json),
    primary w = Some (Doc (JList (before ++ bad :: after))) ->
    hd false (faults w) = false ->
    forallb is_dict before = true ->
    is_dict bad = false ->
    fst (load_recipes (S d) w) = Raises AttributeError
    /\ exists self, RecipeManager_init (S d) w = Some (Returns self)
                    /\ _recipes self = [].
Proof.
  intros d w before after bad Hp Hf Hbefore Hbad.
  assert (Hload : exists w', load_recipes (S d) w = (Raises AttributeError, w')).
  { rewrite (load_recipes_document d w _ Hp Hf). cbn [recipes_data_of iterate].
    rewrite load_entries_app.
    destruct (after_read w) as [p b t f u lg].
    destruct (load_entries_frame before [] u) as (o & u' & pr & Hle & _ & Hd).
    rewrite Hle. destruct (Hd Hbefore) as [l ->].
    cbn [load_entries]. unfold bind at 1, try_except, bind at 1.
    destruct (from_dict_frame bad u') as (o & u'' & Hfd & Hcls).
    rewrite Hfd.
    pose proof (from_dict_outcome bad (mkWorld p b t f u' (lg ++ pr))) as Ho.
    rewrite Hfd in Ho. destruct bad; try discriminate Hbad;
      injection Ho as -> _; eexists; reflexivity. }
  destruct Hload as [w' Hload]. split; [rewrite Hload; reflexivity|].
  unfold RecipeManager_init, _load_recipes. cbn [storage]. rewrite Hload.
  cbn. eexists. split; reflexivity.
Qed.

Lemma load_recipes_non_object_entry_aborts_witness :
  fst (load_recipes 1000
         (mkWorld (Some (Doc (JList ([to_dict Sample.toast] ++ JNum 7 :: []))))
                  None None [] 0 []))
  = Raises AttributeError
  /\ exists self,
       RecipeManager_init 1000
         (mkWorld (Some (Doc (JList ([to_dict Sample.toast] ++ JNum 7 :: []))))
                  None None [] 0 [])
       = Some (Returns self)
       /\ _recipes self = [].
Proof.
  apply (load_recipes_non_object_entry_aborts 999 _ [to_dict Sample.toast] []
           (JNum 7)).
  - reflexivity.
  - reflexivity.
  - reflexivity.
  - reflexivity.
Defined.

(* ===================================================================== *)
(** ** What loading does to the files *)
(* ===================================================================== *)

Lemma load_entries_files (entries : list json) (acc : list RawRecipe) (w : World) :
  primary (snd (load_entries entries acc w)) = primary w
  /\ backup (snd (load_entries entries acc w)) = backup w
  /\ temp (snd (load_entries entries acc w)) = temp w.
Proof.
  destruct w as [p b t f u lg].
  destruct (load_entries_frame entries acc u) as (o & u' & pr & Hle & _).
  rewrite Hle. cbn. auto.
Qed.

(** [load_recipes] never writes the backup or the temporary file, and
    writes the primary file in one case only: when it does not parse and
    a backup exists, whose content it then receives. *)
Theorem load_recipes_touches_primary_only :
  forall (d : nat) (w : World),
    backup (snd (load_recipes d w)) = backup w
    /\ temp (snd (load_recipes d w)) = temp w
    /\ (primary (snd (load_recipes d w)) = primary w
        \/ (primary w = Some Garbage
            /\ backup w <> None
            /\ primary (snd (load_recipes d w)) = backup w)).
Proof.
  induction d as [|d IH]; intros w; [cbn; auto|].
  destruct w as [p b t f u lg].
  destruct p as [[|data]|].
  - (* the primary file does not parse *)
    cbn [load_recipes]. run_storage.
    destruct f as [|[] f]; cbn; auto;
      (destruct b as [cb|]; cbn; auto);
      try (destruct f as [|[] f]; cbn; auto);
      match goal with
      | |- context [load_recipes d ?w1] =>
          pose proof (IH w1) as (Hb & Ht & Hp);
          destruct (load_recipes d w1) as [[l|e] w']
      end; cbn in *;
      (split; [exact Hb|]); (split; [exact Ht|]);
      right; (split; [reflexivity|]); (split; [discriminate|]);
      destruct Hp as [Hp|(_ & _ & Hp)]; exact Hp.
  - (* the primary file parses *)
    destruct f as [|[] f].
    + rewrite (load_recipes_document d _ data) by reflexivity.
      destruct (recipes_data_of data) as [v|]; [|cbn; auto].
      destruct (iterate v) as [es|e]; [|cbn; auto].
      destruct (load_entries_files es [] (after_read (mkWorld (Some (Doc data)) b t [] u lg)))
        as (Hp & Hb & Ht).
      cbn in *. auto.
    + cbn [load_recipes]. run_storage. auto.
    + rewrite (load_recipes_document d _ data) by reflexivity.
      destruct (recipes_data_of data) as [v|]; [|cbn; auto].
      destruct (iterate v) as [es|e]; [|cbn; auto].
      destruct (load_entries_files es []
                  (after_read (mkWorld (Some (Doc data)) b t (false :: f) u lg)))
        as (Hp & Hb & Ht).
      cbn in *. auto.
  - (* no primary file *)
    cbn [load_recipes]. run_storage. auto.
Qed.


Lemma load_recipes_corrupt_no_backup_witness :
  exists w',
    load_recipes 1000 (mkWorld (Some Garbage) None None [] 0 []) = (Returns [], w')
    /\ restores (log w') = restores (log (mkWorld (Some Garbage) None None [] 0 [])).
Proof.
  apply (load_recipes_corrupt_no_backup 999 (mkWorld (Some Garbage) None None [] 0 [])).
  - reflexivity.
  - reflexivity.
  - reflexivity.
Defined.

Lemma load_recipes_corrupt_restore_refused_witness :
  exists w',
    load_recipes 1000
      (mkWorld (Some Garbage) (Some (serialized [Sample.toast])) None
               [false; true] 0 [])
    = (Returns [], w')
    /\ primary w' = Some Garbage.
Proof.
  apply (load_recipes_corrupt_restore_refused 999 _ (serialized [Sample.toast]) []).
  - reflexivity.
  - reflexivity.
  - reflexivity.
Defined.

Lemma load_recipes_corrupt_good_backup_witness :
  exists w',
    load_recipes 1000
      (mkWorld (Some Garbage) (Some (serialized [Sample.toast; Sample.salad]))
               None [] 0 [])
    = (Returns (map raw_of_recipe [Sample.toast; Sample.salad]), w')
    /\ primary w' = Some (serialized [Sample.toast; Sample.salad])
    /\ restores (log w') = 0 + 1
    /\ reads (log w') = 0 + 2.
Proof.
  apply (load_recipes_corrupt_good_backup 998 [Sample.toast; Sample.salad]
           (mkWorld (Some Garbage) (Some (serialized [Sample.toast; Sample.salad]))
                    None [] 0 [])).
  - reflexivity.
  - reflexivity.
  - reflexivity.
Defined.

(* ===================================================================== *)
(** ** What saving does to the files *)
(* ===================================================================== *)



(** A save that returns leaves the new collection in the primary file
    and no temporary file; the backup holds the primary file of before
    the save, unless there was none or its copy was refused, in which
    cases the backup is as it was. *)
Theorem save_recipes_success_files :
  forall (recipes : list Recipe) (w w1 : World),
    save_recipes recipes w = (Returns tt, w1) ->
    primary w1 = Some (serialized recipes)
    /\ temp w1 = None
    /\ backup w1 = match primary w with
                   | Some c => if hd false (faults w) then backup w else Some c
                   | None => backup w
                   end.
Proof.
  intros recipes [p b t f u lg] w1. unfold save_recipes. run_storage.
  destruct p as [c|]; cbn;
    destruct f as [|[] [|[] [|[] f]]]; cbn;
    intros H; inversion H; subst; cbn; auto.
Qed.

Lemma save_recipes_success_files_witness :
  primary (snd (save_recipes [Sample.salad]
                  (mkWorld (Some (serialized [Sample.toast])) None None [] 0 [])))
  = Some (serialized [Sample.salad])
  /\ temp (snd (save_recipes [Sample.salad]
                  (mkWorld (Some (serialized [Sample.toast])) None None [] 0 [])))
     = None
  /\ backup (snd (save_recipes [Sample.salad]
                    (mkWorld (Some (serialized [Sample.toast])) None None [] 0 [])))
     = Some (serialized [Sample.toast]).
Proof.
  apply (save_recipes_success_files [Sample.salad]
           (mkWorld (Some (serialized [Sample.toast])) None None [] 0 [])).
  vm_compute. reflexivity.
Defined.

(** A refused backup copy does not stop the save: when the write of the
    temporary file and the rename go through, the save returns and the
    primary file holds the new collection. *)
Theorem save_recipes_survives_backup_failure :
  forall (recipes : list Recipe) (w : World) (c : content) (rest : list bool),
    primary w = Some c ->
    faults w = true :: false :: false :: rest ->
    exists w1,
      save_recipes recipes w = (Returns tt, w1)
      /\ primary w1 = Some (serialized recipes)
      /\ backup w1 = backup w.
Proof.
  intros recipes [p b t f u lg] c rest; cbn [primary faults]; intros -> ->.
  unfold save_recipes. run_storage. eexists. repeat split.
Qed.

Lemma save_recipes_survives_backup_failure_witness :
  exists w1,
    save_recipes [Sample.salad]
      (mkWorld (Some (serialized [Sample.toast])) None None [true; false; false] 0 [])
    = (Returns tt, w1)
    /\ primary w1 = Some (serialized [Sample.salad])
    /\ backup w1
       = backup (mkWorld (Some (serialized [Sample.toast])) None None
                         [true; false; false] 0 []).
Proof.
  apply (save_recipes_survives_backup_failure [Sample.salad] _
           (serialized [Sample.toast]) []).
  - reflexivity.
  - reflexivity.
Defined.

(** The backup is one save behind.  After two saves in a row with
    nothing refused, a primary file that then stops parsing is restored
    by the next load, which returns the collection of the first save. *)
Theorem load_after_corruption_returns_previous_save :
  forall (first second : list Recipe) (w : World) (d : nat),
    faults w = [] ->
    exists w1 w2 w3,
      save_recipes first w = (Returns tt, w1)
      /\ save_recipes second w1 = (Returns tt, w2)
      /\ backup w2 = Some (serialized first)
      /\ load_recipes (S (S d)) (with_primary (Some Garbage) w2)
         = (Returns (map raw_of_recipe first), w3)
      /\ primary w3 = Some (serialized first).
Proof.
  intros first second w d Hf.
  destruct (save_recipes_unhindered first w Hf) as (w1 & H1 & Hf1).
  destruct (save_recipes_unhindered second w1 Hf1) as (w2 & H2 & Hf2).
  destruct (save_recipes_success_files first w w1 H1) as (Hp1 & _ & _).
  destruct (save_recipes_success_files second w1 w2 H2) as (_ & _ & Hb2).
  rewrite Hp1, Hf1 in Hb2. cbn in Hb2.
  destruct (load_recipes_corrupt_good_backup d first
              (with_primary (Some Garbage) w2)) as (w3 & Hl & Hp3 & _).
  - destruct w2; reflexivity.
  - destruct w2; cbn in *. exact Hb2.
  - destruct w2; cbn in *. exact Hf2.
  - exists w1, w2, w3. repeat split; try assumption.
    rewrite Hp3. destruct w2; cbn in *. exact Hb2.
Qed.

Lemma load_after_corruption_returns_previous_save_witness :
  exists w1 w2 w3,
    save_recipes [Sample.toast] Sample.fresh_world = (Returns tt, w1)
    /\ save_recipes [Sample.toast; Sample.salad] w1 = (Returns tt, w2)
    /\ backup w2 = Some (serialized [Sample.toast])
    /\ load_recipes 1000 (with_primary (Some Garbage) w2)
       = (Returns (map raw_of_recipe [Sample.toast]), w3)
    /\ primary w3 = Some (serialized [Sample.toast]).
Proof.
  apply (load_after_corruption_returns_previous_save [Sample.toast]
           [Sample.toast; Sample.salad] Sample.fresh_world 998).
  reflexivity.
Defined.

(* ===================================================================== *)
(** ** The manager: adding *)
(* ===================================================================== *)

Lemma _save_recipes_returns_synced (self self' : Manager) :
  _save_recipes self = (Returns tt, self') ->
  _recipes self' = _recipes self
  /\ primary (storage self') = Some (serialized (_recipes self)).
Proof.
  unfold _save_recipes, try_except, bind, get_state, on_storage, raise.
  destruct (save_recipes (_recipes self) (storage self)) as [[[]|e] w1] eqn:Hs;
    [|discriminate].
  intros [= <-]. cbn. split; [reflexivity|].
  exact (save_recipes_returns _ _ _ Hs).
Qed.

Lemma blank_name_test (name : string) :
  negb (PyStr.truthy name) || negb (PyStr.truthy (PyStr.strip name)) = true
  <-> PyStr.strip name = "".
Proof.
  destruct name as [|c name']; [cbn; tauto|]. cbn [PyStr.truthy negb orb].
  destruct (PyStr.strip (String c name')); cbn; split; congruence.
Qed.

Lemma find_by_id_app (recipe_id : string) (l : list Recipe) (r : Recipe) :
  find_by_id recipe_id (l ++ [r])
  = match find_by_id recipe_id l with
    | Some x => Some x
    | None => if String.eqb (r_id r) recipe_id then Some r else None
    end.
Proof.
  induction l as [|x l IH]; cbn; [reflexivity|].
  destruct (String.eqb (r_id x) recipe_id); [reflexivity|exact IH].
Qed.

(** A name that is empty, or white space only, is refused: [add_recipe]
    raises [ValueError] before anything is drawn, changed or written. *)
Theorem add_recipe_rejects_blank_name :
  forall name ingredients steps favorite category (self : Manager),
    PyStr.strip name = "" ->
    add_recipe name ingredients steps favorite category self
    = (Raises ValueError, self).
Proof.
  intros name ingredients steps favorite category self H.
  unfold add_recipe. apply blank_name_test in H. rewrite H. reflexivity.
Qed.

Lemma add_recipe_rejects_blank_name_witness :
  add_recipe "   " [] "" false None (Sample.kitchen Sample.fresh_world)
  = (Raises ValueError, Sample.kitchen Sample.fresh_world).
Proof.
  apply (add_recipe_rejects_blank_name "   " [] "" false None
           (Sample.kitchen Sample.fresh_world)).
  reflexivity.
Defined.

(** With any other name, [add_recipe] appends one recipe, whose name is
    the stripped name (so not empty, and free of surrounding white space)
    and whose other fields are the arguments; the recipes already there
    keep their place.  It returns that recipe, or raises because the save
    failed; when it returns, the primary file holds the new collection;
    it returns when nothing is refused. *)
Theorem add_recipe_appends :
  forall name ingredients steps favorite category (self : Manager),
    PyStr.strip name <> "" ->
    let recipe := mkRecipe (uuid_str (uuid_next (storage self))) (PyStr.strip name)
                           ingredients steps favorite (normalize_category category) in
    exists o self',
      add_recipe name ingredients steps favorite category self = (o, self')
      /\ _recipes self' = _recipes self ++ [recipe]
      /\ PyStr.strip (r_name recipe) = r_name recipe
      /\ (o = Returns recipe \/ o = Raises RuntimeError)
      /\ (o = Returns recipe ->
          primary (storage self') = Some (serialized (_recipes self')))
      /\ (faults (storage self) = [] -> o = Returns recipe).
Proof.
  intros name ingredients steps favorite category self Hne recipe.
  unfold add_recipe.
  destruct (negb (PyStr.truthy name) || negb (PyStr.truthy (PyStr.strip name)))
    eqn:Hb; [apply blank_name_test in Hb; contradiction|].
  run_manager. fold recipe.
  match goal with
  | |- context [_save_recipes ?m] =>
      pose proof (_save_recipes_returns_synced m) as Hsync;
      pose proof (_save_recipes_unhindered m) as Hok;
      destruct (_save_recipes_outcome m) as [w' [H|H]]; rewrite H in *
  end; cbn [_recipes storage] in *.
  - eexists _, _. split; [reflexivity|]. cbn [_recipes storage].
    split; [reflexivity|]. split; [apply strip_idempotent|].
    split; [auto|]. split; [|auto].
    intros _. destruct (Hsync _ eq_refl) as [_ Hp]. exact Hp.
  - eexists _, _. split; [reflexivity|]. cbn [_recipes storage].
    split; [reflexivity|]. split; [apply strip_idempotent|].
    split; [auto|]. split; [discriminate|].
    intros Hf. destruct (Hok Hf) as (w'' & [=] & _).
Qed.

Lemma add_recipe_appends_witness :
  exists o self',
    add_recipe " Tea " [mkIngredient "Leaves" "1 tsp"] "Steep." false (Some "drinks")
               (Sample.kitchen Sample.fresh_world)
    = (o, self')
    /\ _recipes self'
       = [Sample.tomato_soup; Sample.salad; Sample.toast]
         ++ [mkRecipe "uuid-0" "Tea" [mkIngredient "Leaves" "1 tsp"] "Steep." false
                      (Some "drinks")]
    /\ PyStr.strip "Tea" = "Tea"
    /\ (o = Returns (mkRecipe "uuid-0" "Tea" [mkIngredient "Leaves" "1 tsp"] "Steep."
                              false (Some "drinks"))
        \/ o = Raises RuntimeError)
    /\ (o = Returns (mkRecipe "uuid-0" "Tea" [mkIngredient "Leaves" "1 tsp"] "Steep."
                              false (Some "drinks")) ->
        primary (storage self') = Some (serialized (_recipes self')))
    /\ (faults Sample.fresh_world = [] ->
        o = Returns (mkRecipe "uuid-0" "Tea" [mkIngredient "Leaves" "1 tsp"] "Steep."
                              false (Some "drinks"))).
Proof.
  apply (add_recipe_appends " Tea " [mkIngredient "Leaves" "1 tsp"] "Steep." false
           (Some "drinks") (Sample.kitchen Sample.fresh_world)).
  vm_compute. discriminate.
Defined.

(** Adding never hides a recipe: an id that resolved before the call
    resolves to the same recipe after it, and the id of the new recipe
    resolves to it as soon as no earlier recipe has that id. *)
Theorem add_recipe_keeps_lookups :
  forall name ingredients steps favorite category (self : Manager),
    PyStr.strip name <> "" ->
    let self' := snd (add_recipe name ingredients steps favorite category self) in
    let recipe := mkRecipe (uuid_str (uuid_next (storage self))) (PyStr.strip name)
                           ingredients steps favorite (normalize_category category) in
    (forall recipe_id found,
        get_recipe_by_id recipe_id self = Some found ->
        get_recipe_by_id recipe_id self' = Some found)
    /\ (get_recipe_by_id (r_id recipe) self = None ->
        get_recipe_by_id (r_id recipe) self' = Some recipe).
Proof.
  intros name ingredients steps favorite category self Hne self' recipe.
  destruct (add_recipe_appends name ingredients steps favorite category self Hne)
    as (o & s' & Hadd & Hrec & _).
  subst self'. rewrite Hadd. cbn [snd]. unfold get_recipe_by_id. rewrite Hrec.
  fold recipe. split.
  - intros recipe_id found H. rewrite find_by_id_app, H. reflexivity.
  - intros H. rewrite find_by_id_app, H. rewrite String.eqb_refl. reflexivity.
Qed.

Lemma add_recipe_keeps_lookups_witness :
  let self' := snd (add_recipe "Tea" [] "" false None
                               (Sample.kitchen Sample.fresh_world)) in
  (forall recipe_id found,
      get_recipe_by_id recipe_id (Sample.kitchen Sample.fresh_world) = Some found ->
      get_recipe_by_id recipe_id self' = Some found)
  /\ (get_recipe_by_id "uuid-0" (Sample.kitchen Sample.fresh_world) = None ->
      get_recipe_by_id "uuid-0" self' = Some (mkRecipe "uuid-0" "Tea" [] "" false None)).
Proof.
  apply (add_recipe_keeps_lookups "Tea" [] "" false None
           (Sample.kitchen Sample.fresh_world)).
  vm_compute. discriminate.
Defined.

(** What a successful [add_recipe] stored is what a manager started
    afterwards on the same files holds, as long as its read of the
    primary file is not refused. *)
Theorem add_recipe_survives_restart :
  forall name ingredients steps favorite category (self self' : Manager)
         (recipe : Recipe) (d : nat),
    add_recipe name ingredients steps favorite category self
      = (Returns recipe, self') ->
    hd false (faults (storage self')) = false ->
    exists restarted,
      RecipeManager_init (S d) (storage self') = Some (Returns restarted)
      /\ _recipes restarted = _recipes self ++ [recipe].
Proof.
  intros name ingredients steps favorite category self self' recipe d Hadd Hf.
  destruct (String.eqb_spec (PyStr.strip name) "") as [Hb|Hne].
  - rewrite (add_recipe_rejects_blank_name _ _ _ _ _ _ Hb) in Hadd. discriminate.
  - destruct (add_recipe_appends name ingredients steps favorite category self Hne)
      as (o & s' & Hadd' & Hrec & _ & Ho & Hsync & _).
    rewrite Hadd in Hadd'. injection Hadd' as <- <-.
    destruct Ho as [[= Hr]|[=]].
    specialize (Hsync (f_equal Returns Hr)). rewrite Hrec in Hsync.
    destruct (load_recipes_saved_document d _ _ Hsync Hf) as [w' Hl].
    unfold RecipeManager_init, _load_recipes. cbn [storage].
    rewrite Hl, typed_all_raw_recipes. eexists. split; [reflexivity|].
    cbn [_recipes]. rewrite Hr. reflexivity.
Qed.

Lemma add_recipe_survives_restart_witness :
  exists restarted,
    RecipeManager_init 1000
      (storage (snd (add_recipe "Tea" [] "" false None
                                (Sample.kitchen Sample.fresh_world))))
    = Some (Returns restarted)
    /\ _recipes restarted
       = _recipes (Sample.kitchen Sample.fresh_world)
         ++ [mkRecipe "uuid-0" "Tea" [] "" false None].
Proof.
  apply (add_recipe_survives_restart "Tea" [] "" false None
           (Sample.kitchen Sample.fresh_world) _ _ 999).
  - vm_compute. reflexivity.
  - reflexivity.
Defined.

(* ===================================================================== *)
(** ** The manager: looking up, deleting, updating *)
(* ===================================================================== *)

Lemma find_by_id_In (recipe_id : string) (l : list Recipe) (r : Recipe) :
  find_by_id recipe_id l = Some r -> In r l.
Proof.
  induction l as [|x l IH]; cbn; [discriminate|].
  destruct (String.eqb (r_id x) recipe_id); [intros [= <-]; auto|auto].
Qed.

Lemma find_by_id_None (recipe_id : string) (l : list Recipe) :
  find_by_id recipe_id l = None <-> ~ In recipe_id (map r_id l).
Proof.
  induction l as [|x l IH]; cbn; [tauto|].
  destruct (String.eqb_spec (r_id x) recipe_id) as [He|Hne].
  - split; [discriminate|]. intros H. contradiction H. auto.
  - rewrite IH. tauto.
Qed.

(** [get_recipe_by_id] returns a recipe of the collection that has the
    id asked for, and [recipe_exists] says whether some recipe of the
    collection has it. *)
Theorem recipe_lookup_sound_and_complete :
  forall (recipe_id : string) (self : Manager),
    (forall recipe,
        get_recipe_by_id recipe_id self = Some recipe ->
        In recipe (get_all_recipes self) /\ r_id recipe = recipe_id)
    /\ (recipe_exists recipe_id self = true
        <-> In recipe_id (map r_id (get_all_recipes self))).
Proof.
  intros recipe_id self. unfold recipe_exists, get_recipe_by_id, get_all_recipes.
  split.
  - intros recipe H. split; [eapply find_by_id_In|eapply find_by_id_id]; exact H.
  - destruct (find_by_id recipe_id (_recipes self)) as [r|] eqn:Hf.
    + split; [intros _|reflexivity].
      apply in_map_iff. exists r. split;
        [eapply find_by_id_id|eapply find_by_id_In]; exact Hf.
    + apply find_by_id_None in Hf. split; [discriminate|contradiction].
Qed.

Lemma delete_first_found (recipe_id : string) (l : list Recipe) (r : Recipe) :
  find_by_id recipe_id l = Some r ->
  exists l', delete_first recipe_id l = Some l'.
Proof.
  intros H. destruct (delete_first recipe_id l) as [l'|] eqn:Hd; [eauto|].
  apply delete_first_find in Hd. congruence.
Qed.

Lemma delete_first_other (recipe_id other : string) (l l' : list Recipe) :
  delete_first recipe_id l = Some l' ->
  other <> recipe_id ->
  find_by_id other l' = find_by_id other l.
Proof.
  revert l'. induction l as [|x l IH]; intros l'; cbn; [discriminate|].
  destruct (String.eqb_spec (r_id x) recipe_id) as [He|Hne].
  - intros [= <-] Ho.
    destruct (String.eqb_spec (r_id x) other); [congruence|reflexivity].
  - destruct (delete_first recipe_id l) as [l0|]; [|discriminate].
    intros [= <-] Ho. cbn. rewrite (IH l0 eq_refl Ho). reflexivity.
Qed.

Lemma delete_first_gone (recipe_id : string) (l l' : list Recipe) :
  delete_first recipe_id l = Some l' ->
  List.NoDup (map r_id l) ->
  find_by_id recipe_id l' = None.
Proof.
  revert l'. induction l as [|x l IH]; intros l'; cbn; [discriminate|].
  destruct (String.eqb_spec (r_id x) recipe_id) as [He|Hne].
  - intros [= <-] Hnd. apply find_by_id_None.
    inversion Hnd; subst. assumption.
  - destruct (delete_first recipe_id l) as [l0|]; [|discriminate].
    intros [= <-] Hnd. inversion Hnd; subst. cbn.
    destruct (String.eqb_spec (r_id x) recipe_id); [contradiction|].
    apply IH; [reflexivity|assumption].
Qed.

(** Deleting an id that does not resolve returns [False] and does
    nothing: no recipe leaves, no file operation is attempted. *)
Theorem delete_recipe_unknown_id :
  forall (recipe_id : string) (self : Manager),
    get_recipe_by_id recipe_id self = None ->
    delete_recipe recipe_id self = (Returns false, self).
Proof.
  intros recipe_id self H. unfold delete_recipe. run_manager.
  apply delete_first_find in H. rewrite H. reflexivity.
Qed.

Lemma delete_recipe_unknown_id_witness :
  delete_recipe "9" (Sample.kitchen Sample.fresh_world)
  = (Returns false, Sample.kitchen Sample.fresh_world).
Proof.
  apply (delete_recipe_unknown_id "9" (Sample.kitchen Sample.fresh_world)).
  reflexivity.
Defined.

(** Deleting an id that resolves takes exactly one recipe out; the
    other ids resolve as before.  The call returns [True] or raises
    because the save failed; when it returns, the primary file holds the
    remaining collection.  When the ids of the collection are distinct,
    the id no longer resolves and a second deletion returns [False]. *)
Theorem delete_recipe_known_id :
  forall (recipe_id : string) (self : Manager) (recipe : Recipe),
    get_recipe_by_id recipe_id self = Some recipe ->
    exists o self',
      delete_recipe recipe_id self = (o, self')
      /\ (o = Returns true \/ o = Raises RuntimeError)
      /\ get_recipe_count self = S (get_recipe_count self')
      /\ (forall other, other <> recipe_id ->
            get_recipe_by_id other self' = get_recipe_by_id other self)
      /\ (o = Returns true ->
          primary (storage self') = Some (serialized (_recipes self')))
      /\ (List.NoDup (map r_id (_recipes self)) ->
          get_recipe_by_id recipe_id self' = None
          /\ delete_recipe recipe_id self' = (Returns false, self')).
Proof.
  intros recipe_id self recipe Hget.
  destruct (delete_first_found _ _ _ Hget) as [remaining Hdel].
  unfold delete_recipe at 1. run_manager. rewrite Hdel. run_manager.
  match goal with
  | |- context [_save_recipes ?m] =>
      pose proof (_save_recipes_returns_synced m) as Hsync;
      destruct (_save_recipes_outcome m) as [w' [H|H]]; rewrite H in *
  end; cbn [_recipes storage] in *;
    (eexists _, _; split; [reflexivity|]; cbn [_recipes storage];
     split; [auto|];
     split; [unfold get_recipe_count; cbn [_recipes];
             eapply delete_first_length; eassumption|];
     split; [intros other Ho; unfold get_recipe_by_id; cbn [_recipes];
             eapply delete_first_other; eassumption|];
     split;
       [|intros Hnd;
         assert (Hgone : get_recipe_by_id recipe_id (mkManager remaining w') = None)
           by (unfold get_recipe_by_id; cbn [_recipes];
               eapply delete_first_gone; eassumption);
         split; [exact Hgone|apply delete_recipe_unknown_id; exact Hgone]]).
  - intros _. destruct (Hsync _ eq_refl) as [_ Hp]. exact Hp.
  - discriminate.
Qed.

Lemma delete_recipe_known_id_witness :
  exists o self',
    delete_recipe "2" (Sample.kitchen Sample.fresh_world) = (o, self')
    /\ (o = Returns true \/ o = Raises RuntimeError)
    /\ get_recipe_count (Sample.kitchen Sample.fresh_world)
       = S (get_recipe_count self')
    /\ (forall other, other <> "2" ->
          get_recipe_by_id other self'
          = get_recipe_by_id other (Sample.kitchen Sample.fresh_world))
    /\ (o = Returns true ->
        primary (storage self') = Some (serialized (_recipes self')))
    /\ (List.NoDup (map r_id (_recipes (Sample.kitchen Sample.fresh_world))) ->
        get_recipe_by_id "2" self' = None
        /\ delete_recipe "2" self' = (Returns false, self')).
Proof.
  apply (delete_recipe_known_id "2" (Sample.kitchen Sample.fresh_world) Sample.salad).
  reflexivity.
Defined.

Lemma update_by_id_ids (recipe_id : string) (f : Recipe -> Recipe)
    (l : list Recipe) :
  (forall x, r_id (f x) = r_id x) ->
  map r_id (update_by_id recipe_id f l) = map r_id l.
Proof.
  intros Hid. induction l as [|x l IH]; cbn; [reflexivity|].
  destruct (String.eqb (r_id x) recipe_id); cbn; [rewrite Hid|rewrite IH]; reflexivity.
Qed.

Lemma update_by_id_other (recipe_id other : string) (f : Recipe -> Recipe)
    (l : list Recipe) :
  (forall x, r_id (f x) = r_id x) ->
  other <> recipe_id ->
  find_by_id other (update_by_id recipe_id f l) = find_by_id other l.
Proof.
  intros Hid Ho. induction l as [|x l IH]; cbn; [reflexivity|].
  destruct (String.eqb_spec (r_id x) recipe_id) as [He|Hne]; cbn.
  - rewrite Hid.
    destruct (String.eqb_spec (r_id x) other); [congruence|reflexivity].
  - rewrite IH. reflexivity.
Qed.

Lemma apply_update_id name ingredients steps favorite category (r : Recipe) :
  r_id (apply_update name ingredients steps favorite category r) = r_id r.
Proof.
  unfold apply_update.
  destruct name, ingredients, steps, favorite, category; reflexivity.
Qed.

(** Whatever its arguments and however it ends, [update_recipe] leaves
    the ids of the collection, and their order, as they were. *)
Theorem update_recipe_keeps_ids :
  forall recipe_id name ingredients steps favorite category (self : Manager),
    map r_id (_recipes
                (snd (update_recipe recipe_id name ingredients steps favorite
                                    category self)))
    = map r_id (_recipes self).
Proof.
  intros recipe_id name ingredients steps favorite category self.
  unfold update_recipe. run_manager.
  destruct (get_recipe_by_id recipe_id self) as [recipe|]; [|reflexivity].
  destruct (match name with
            | Some n => negb (PyStr.truthy (PyStr.strip n))
            | None => false
            end); [reflexivity|].
  run_manager.
  match goal with
  | |- context [_save_recipes ?m] =>
      destruct (_save_recipes_outcome m) as [w' [H|H]]; rewrite H
  end; cbn [snd _recipes];
    apply update_by_id_ids; intros x; apply apply_update_id.
Qed.

(** A new name that is empty once stripped is refused even when the id
    resolves and other fields are given: [ValueError], and no field is
    assigned. *)
Theorem update_recipe_rejects_blank_name :
  forall recipe_id name ingredients steps favorite category (self : Manager),
    PyStr.strip name = "" ->
    update_recipe recipe_id (Some name) ingredients steps favorite category self
    = (Raises ValueError, self).
Proof.
  intros recipe_id name ingredients steps favorite category self H.
  unfold update_recipe. run_manager.
  destruct (get_recipe_by_id recipe_id self); [|reflexivity].
  rewrite H. reflexivity.
Qed.

Lemma update_recipe_rejects_blank_name_witness :
  update_recipe "3" (Some "  ") None (Some "Burn it.") (Some true) None
                (Sample.kitchen Sample.fresh_world)
  = (Raises ValueError, Sample.kitchen Sample.fresh_world).
Proof.
  apply (update_recipe_rejects_blank_name "3" "  " None (Some "Burn it.") (Some true)
           None (Sample.kitchen Sample.fresh_world)).
  reflexivity.
Defined.

(** On an id that resolves, with no new name or one that is not blank,
    [update_recipe] assigns the fields given and no other, to that recipe
    and no other; a new name is stored stripped.  It returns the updated
    recipe, to which the id now resolves, or raises because the save
    failed. *)
Theorem update_recipe_assigns_given_fields :
  forall recipe_id name ingredients steps favorite category
         (self : Manager) (recipe : Recipe),
    get_recipe_by_id recipe_id self = Some recipe ->
    (forall n, name = Some n -> PyStr.strip n <> "") ->
    exists o self' updated,
      update_recipe recipe_id name ingredients steps favorite category self
        = (o, self')
      /\ (o = Returns updated \/ o = Raises RuntimeError)
      /\ get_recipe_by_id recipe_id self' = Some updated
      /\ (forall other, other <> recipe_id ->
            get_recipe_by_id other self' = get_recipe_by_id other self)
      /\ r_id updated = r_id recipe
      /\ r_name updated
         = match name with Some n => PyStr.strip n | None => r_name recipe end
      /\ r_ingredients updated
         = match ingredients with Some l => l | None => r_ingredients recipe end
      /\ r_steps updated
         = match steps with Some s => s | None => r_steps recipe end
      /\ r_favorite updated
         = match favorite with Some b => b | None => r_favorite recipe end
      /\ r_category updated
         = match category with
           | Some c => normalize_category (Some c)
           | None => r_category recipe
           end
      /\ (o = Returns updated ->
          primary (storage self') = Some (serialized (_recipes self'))).
Proof.
  intros recipe_id name ingredients steps favorite category self recipe Hget Hname.
  unfold update_recipe. run_manager. rewrite Hget.
  assert (Hcheck : match name with
                   | Some n => negb (PyStr.truthy (PyStr.strip n))
                   | None => false
                   end = false).
  { destruct name as [n|]; [|reflexivity].
    specialize (Hname n eq_refl). destruct (PyStr.strip n); [congruence|reflexivity]. }
  rewrite Hcheck. run_manager.
  set (f := apply_update name ingredients steps favorite category).
  assert (Hid : forall x, r_id (f x) = r_id x) by (intros x; apply apply_update_id).
  pose proof (find_by_id_update recipe_id f (_recipes self) recipe Hid Hget) as Hnew.
  match goal with
  | |- context [_save_recipes ?m] =>
      pose proof (_save_recipes_returns_synced m) as Hsync;
      destruct (_save_recipes_outcome m) as [w' [H|H]]; rewrite H in *
  end; cbn [_recipes storage] in *;
    [unfold get_recipe_by_id at 1; cbn [_recipes]; rewrite Hnew|];
    (eexists _, _, (f recipe); split; [reflexivity|];
     split; [auto|];
     split; [exact Hnew|];
     split; [intros other Ho; unfold get_recipe_by_id; cbn [_recipes];
             apply update_by_id_other; assumption|];
     split; [apply Hid|];
     split; [unfold f, apply_update;
             destruct name, ingredients, steps, favorite, category; reflexivity|];
     split; [unfold f, apply_update;
             destruct name, ingredients, steps, favorite, category; reflexivity|];
     split; [unfold f, apply_update;
             destruct name, ingredients, steps, favorite, category; reflexivity|];
     split; [unfold f, apply_update;
             destruct name, ingredients, steps, favorite, category; reflexivity|];
     split; [unfold f, apply_update;
             destruct name, ingredients, steps, favorite, category; reflexivity|]).
  - intros _. destruct (Hsync _ eq_refl) as [_ Hp]. exact Hp.
  - discriminate.
Qed.

Lemma update_recipe_assigns_given_fields_witness :
  exists o self' updated,
    update_recipe "3" (Some " French Toast ") None None (Some true) None
                  (Sample.kitchen Sample.fresh_world)
      = (o, self')
    /\ (o = Returns updated \/ o = Raises RuntimeError)
    /\ get_recipe_by_id "3" self' = Some updated
    /\ (forall other, other <> "3" ->
          get_recipe_by_id other self'
          = get_recipe_by_id other (Sample.kitchen Sample.fresh_world))
    /\ r_id updated = r_id Sample.toast
    /\ r_name updated = PyStr.strip " French Toast "
    /\ r_ingredients updated = r_ingredients Sample.toast
    /\ r_steps updated = r_steps Sample.toast
    /\ r_favorite updated = true
    /\ r_category updated = r_category Sample.toast
    /\ (o = Returns updated ->
        primary (storage self') = Some (serialized (_recipes self'))).
Proof.
  apply (update_recipe_assigns_given_fields "3" (Some " French Toast ") None None
           (Some true) None (Sample.kitchen Sample.fresh_world) Sample.toast).
  - reflexivity.
  - intros n [= <-]. vm_compute. discriminate.
Defined.

(* ===================================================================== *)
(** ** Favorites *)
(* ===================================================================== *)

Lemma favorites_after_flip (recipe_id : string) (l : list Recipe) (r : Recipe) :
  find_by_id recipe_id l = Some r ->
  let l' := update_by_id recipe_id (set_favorite (negb (r_favorite r))) l in
  length l' = length l
  /\ if r_favorite r
     then S (length (filter (fun x => r_favorite x = true) l'))
          = length (filter (fun x => r_favorite x = true) l)
     else length (filter (fun x => r_favorite x = true) l')
          = S (length (filter (fun x => r_favorite x = true) l)).
Proof.
  cbv zeta. induction l as [|x l IH]; cbn [find_by_id update_by_id];
    [discriminate|].
  destruct (String.eqb (r_id x) recipe_id).
  - intros [= <-]. split; [reflexivity|].
    rewrite !filter_cons. destruct x as [i n ings s [] c]; cbn;
      repeat case_decide; try congruence; reflexivity.
  - intros H. destruct (IH H) as [Hlen Hfav]. split; [cbn; congruence|].
    rewrite !filter_cons. destruct (r_favorite r);
      case_decide; cbn [length]; congruence.
Qed.

(** Toggling a recipe leaves the number of recipes as it was and moves
    the number of favorites by exactly one, up when the recipe was not a
    favorite and down when it was, whether or not the save succeeds. *)
Theorem toggle_favorite_moves_favorite_count :
  forall (recipe_id : string) (self : Manager) (recipe : Recipe),
    get_recipe_by_id recipe_id self = Some recipe ->
    let self' := snd (toggle_favorite recipe_id self) in
    get_recipe_count self' = get_recipe_count self
    /\ if r_favorite recipe
       then S (get_favorite_count self') = get_favorite_count self
       else get_favorite_count self' = S (get_favorite_count self).
Proof.
  intros recipe_id self recipe Hget self'.
  destruct (toggle_favorite_found recipe_id self recipe Hget) as (o & w' & Ht & _).
  subst self'. rewrite Ht. cbn [snd].
  unfold get_recipe_count, get_favorite_count, get_favorite_recipes. cbn [_recipes].
  exact (favorites_after_flip recipe_id (_recipes self) recipe Hget).
Qed.

Lemma toggle_favorite_moves_favorite_count_witness :
  let self' := snd (toggle_favorite "2" (Sample.kitchen Sample.refusing_world)) in
  get_recipe_count self' = get_recipe_count (Sample.kitchen Sample.refusing_world)
  /\ S (get_favorite_count self')
     = get_favorite_count (Sample.kitchen Sample.refusing_world).
Proof.
  apply (toggle_favorite_moves_favorite_count "2"
           (Sample.kitchen Sample.refusing_world) Sample.salad).
  reflexivity.
Defined.
